(** * Cubework: communication profiler, data-parallel reducers and metrics

    A shallow embedding of

    - [cubework/utils/profiling/communication.py]  (CommProfiler, CommHandler
      and the five profiled collectives),
    - [benchmark/train.py]  ([_data_parallel_sum], [_data_parallel_mean] and
      the profiling bracket of [_train]),
    - [cubework/module/metric/metrics.py]  (Accuracy and Perplexity),

    followed by the properties proved about them.

    Numbers.  Python [int] is [Z].  Python [float] (volumes, wall-clock
    readings) is modelled by exact rationals [Q]: rounding is not modelled, so
    equalities between volumes are stated up to [Qeq].  A 0-dim [torch.int]
    tensor is a [Z] kept in the signed 32-bit range by [wrap32]; a 0-dim
    [torch.float] tensor is an extended real ([xreal]: a real number, the two
    infinities or NaN), again without rounding.  Division of tensors follows
    the IEEE rules for a zero divisor (no exception), division of Python
    numbers raises [ZeroDivisionError].

    Time.  [time.time()] is not run: every call that may read the clock takes
    the reading as an argument.

    Ranks.  Each process runs the same code; a collective is seen from the
    calling rank, with the contributions of the other ranks given. *)

(** Also embedded, with properties of their own after those above:
    [cubework/initialize.py] ([initialize_distributed]),
    [tests/test_1d/test_1d.py] ([run]), and from [benchmark/train.py] the
    optimizer schedule of [_train].  The calls these make into the engine
    and into modules that are not at hand are recorded in order, and taken
    to return. *)

From Stdlib Require Import ZArith QArith List Bool Lia.
From Stdlib Require String.
From Stdlib Require DecimalString DecimalZ.
Import String.StringSyntax.
Delimit Scope string_scope with string.
From Stdlib Require Import Reals Psatz.
Import ListNotations.

Close Scope R_scope.
Close Scope Q_scope.
Open Scope Z_scope.

(** ** Python results: a value or a raised exception, over a mutable state *)

Module Py.

Inductive exn : Type :=
| TypeError
| AttributeError
| KeyError
| ZeroDivisionError.

Inductive result (A : Type) : Type :=
| Returns (a : A)
| Raises (e : exn).
Arguments Returns {A} a.
Arguments Raises {A} e.

(** A computation over a state [S]: mutations made before an exception is
    raised stay in the state, as they do in Python. *)
Definition M (S A : Type) : Type := S -> result A * S.

Definition ret {S A} (a : A) : M S A := fun s => (Returns a, s).

Definition raise {S A} (e : exn) : M S A := fun s => (Raises e, s).

Definition bind {S A B} (m : M S A) (k : A -> M S B) : M S B :=
  fun s =>
    match m s with
    | (Returns a, s') => k a s'
    | (Raises e, s') => (Raises e, s')
    end.

Definition get {S} : M S S := fun s => (Returns s, s).

Definition put {S} (s : S) : M S unit := fun _ => (Returns tt, s).

Definition modify {S} (f : S -> S) : M S unit := fun s => (Returns tt, f s).

(** The values a statement such as [a, b, c = f()] can receive. *)
Inductive num : Type :=
| PyInt (n : Z)
| PyFloat (x : Q).

Inductive obj : Type :=
| PyNone
| PyNum (n : num)
| PyTuple (items : list num).

(** [a, b, c = o]: unpacking of exactly three items; [None] is not
    iterable. *)
Definition unpack3 (o : obj) : result (num * num * num) :=
  match o with
  | PyTuple [a; b; c] => Returns (a, b, c)
  | _ => Raises TypeError
  end.

(** [a / b] on Python integers (true division). *)
Definition truediv (a b : Z) : result Q :=
  if b =? 0 then Raises ZeroDivisionError
  else Returns (inject_Z a / inject_Z b)%Q.

Definition is_raise {A} (r : result A) : bool :=
  match r with Raises _ => true | Returns _ => false end.

(** A callee given a reference to the field of an object works on that
    field: [get_field] reads it, [set_field] stores what the callee leaves. *)
Definition borrow {S T A} (get_field : S -> T) (set_field : S -> T -> S)
  (m : M T A) : M S A :=
  fun s => let (r, x) := m (get_field s) in (r, set_field s x).

(** A callee given a temporary object: what it leaves there is dropped. *)
Definition temporary {S T A} (x : T) (m : M T A) : M S A :=
  fun s => (fst (m x), s).

(** [n] calls of [m] in succession, collecting what they return. *)
Fixpoint calls {S A} (n : nat) (m : M S A) : M S (list A) :=
  match n with
  | O => ret []
  | S n' => bind m (fun x => bind (calls n' m) (fun xs => ret (x :: xs)))
  end.

End Py.

Import Py.

Declare Scope py_scope.
Delimit Scope py_scope with py.
Notation "x <- m ;; k" := (Py.bind m (fun x => k))
(at level 61, m at next level, right associativity) : py_scope.
Notation "m ;;; k" := (Py.bind m (fun _ => k))
(at level 61, right associativity) : py_scope.

(** ** communication.py *)

(** *** class CommProfiler: the fields and the methods on one object *)

Module CommProfiler.

Record t : Type := mk {
  running_ops : Z;
  total_time : Q;
  total_vol : Q;
  total_cnt : Z;
  start_time : option Q
}.

(** [reset]: also what [__init__] leaves behind. *)
Definition reset_state : t :=
  {| running_ops := 0;
     total_time := 0;
     total_vol := 0;
     total_cnt := 0;
     start_time := None |}.

Definition reset : M t unit := put reset_state.

(** [new(vol)]; [now] is what [time.time()] reads if it is called. *)
Definition new (vol now : Q) : M t unit :=
  modify (fun self =>
    {| running_ops := running_ops self + 1;
       total_time := total_time self;
       total_vol := (total_vol self + vol)%Q;
       total_cnt := total_cnt self + 1;
       start_time := match start_time self with
                     | None => Some now
                     | Some t0 => Some t0
                     end |}).

(** [finish()]: the decrement is done before the test, so it survives the
    [TypeError] of [time.time() - None]. *)
Definition finish (now : Q) : M t unit :=
  (modify (fun self =>
     {| running_ops := running_ops self - 1;
        total_time := total_time self;
        total_vol := total_vol self;
        total_cnt := total_cnt self;
        start_time := start_time self |}) ;;;
   self <- get ;;
   if running_ops self =? 0 then
     match start_time self with
     | None => raise TypeError
     | Some t0 =>
         put {| running_ops := running_ops self;
                total_time := (total_time self + (now - t0))%Q;
                total_vol := total_vol self;
                total_cnt := total_cnt self;
                start_time := None |}
     end
   else ret tt)%py.

End CommProfiler.

(** *** The module: the process-wide [dist] entry points, the handle and the
    five wrappers *)

Module Comm.

(** Objects live in a store and are named by references: a [CommHandler]
    keeps a reference to its profiler, not a copy of it. *)
Definition ref : Type := nat.

(** What one of the names [dist.all_reduce], ... is bound to: the function of
    the engine, saved at import as [torch_all_reduce], ..., or
    [partial(wrapper, profiler=p)]. *)
Inductive binding : Type :=
| Torch
| Profiled (p : ref).

Record DistModule : Type := mkDist {
  d_all_reduce : binding;
  d_all_gather : binding;
  d_reduce_scatter : binding;
  d_broadcast : binding;
  d_reduce : binding
}.

Record World : Type := mkWorld {
  objs : ref -> CommProfiler.t;
  dist : DistModule
}.

Definition pristine : DistModule := mkDist Torch Torch Torch Torch Torch.

Definition intercepted (p : ref) : DistModule :=
  mkDist (Profiled p) (Profiled p) (Profiled p) (Profiled p) (Profiled p).

Definition upd (p : ref) (o : CommProfiler.t) (h : ref -> CommProfiler.t)
  : ref -> CommProfiler.t :=
  fun q => if Nat.eqb q p then o else h q.

(** Run a method on the object behind [p]. *)
Definition on {A} (p : ref) (m : M CommProfiler.t A) : M World A :=
  fun w =>
    let (r, o) := m (objs w p) in
    (r, {| objs := upd p o (objs w); dist := dist w |}).

(** [CommProfiler.start] *)
Definition start (self : ref) : M World obj :=
  fun w => (Returns PyNone, {| objs := objs w; dist := intercepted self |}).

(** [CommProfiler.stop]: five assignments and no [return] statement. *)
Definition stop (self : ref) : M World obj :=
  fun w => (Returns PyNone, {| objs := objs w; dist := pristine |}).

Definition reset (self : ref) : M World unit := on self CommProfiler.reset.

Definition new (self : ref) (vol now : Q) : M World unit :=
  on self (CommProfiler.new vol now).

Definition finish (self : ref) (now : Q) : M World unit :=
  on self (CommProfiler.finish now).

(** The engine's side, as far as the profiler sees it. *)
Inductive ReduceOp : Type := SUM | PRODUCT | MIN | MAX.

Record Tensor : Type := mkTensor {
  element_size : Z;
  numel : Z
}.

Record ProcessGroup : Type := mkGroup {
  group_size : Z
}.

Definition get_world_size (group : ProcessGroup) : Z := group_size group.

(** The completion token of the engine. *)
Inductive Work : Type := WorkToken.

(** Any of the engine's collectives: no effect on the profiler, a token when
    asynchronous and [None] otherwise. *)
Definition torch_collective (async_op : bool) : M World (option Work) :=
  ret (if async_op then Some WorkToken else None).

(** [class CommHandler] *)
Record CommHandler : Type := mkHandler {
  prof : ref;
  work : option Work
}.

(** [CommHandler.wait]; [now] is the clock when [work.wait()] has returned. *)
Definition wait (self : CommHandler) (now : Q) : M World unit :=
  match work self with
  | None => raise AttributeError
  | Some _ => finish (prof self) now
  end.

Definition nbytes (tensor : Tensor) : Z := element_size tensor * numel tensor.

(** The tail shared by the five wrappers: [t_ret] is the clock when the
    engine's call has returned. *)
Definition complete (profiler : ref) (async_op : bool) (wk : option Work)
  (t_ret : Q) : M World (option CommHandler) :=
  if async_op then ret (Some (mkHandler profiler wk))
  else (finish profiler t_ret ;;; ret None)%py.

(** The loop [for tensor in input_list: comm_vol += ...], from 0. *)
Definition list_bytes (l : list Tensor) : Z :=
  fold_left (fun acc tensor => acc + element_size tensor * numel tensor) l 0.

Definition lift {A} (r : result A) : M World A := fun w => (r, w).

(** [t_call] is the clock when the wrapper is entered. *)
Definition all_reduce (tensor : Tensor) (op : ReduceOp) (group : ProcessGroup)
  (async_op : bool) (profiler : ref) (t_call t_ret : Q)
  : M World (option CommHandler) :=
  (let comm_size := get_world_size group in
   correction <- lift (truediv (2 * (comm_size - 1)) comm_size) ;;
   let comm_vol :=
     (correction * inject_Z (element_size tensor) * inject_Z (numel tensor))%Q in
   new profiler comm_vol t_call ;;;
   wk <- torch_collective async_op ;;
   complete profiler async_op wk t_ret)%py.

Definition reduce_scatter (output : Tensor) (input_list : list Tensor)
  (op : ReduceOp) (group : ProcessGroup) (async_op : bool) (profiler : ref)
  (t_call t_ret : Q) : M World (option CommHandler) :=
  (let comm_size := get_world_size group in
   correction <- lift (truediv (comm_size - 1) comm_size) ;;
   let comm_vol := (inject_Z (list_bytes input_list) * correction)%Q in
   new profiler comm_vol t_call ;;;
   wk <- torch_collective async_op ;;
   complete profiler async_op wk t_ret)%py.

Definition all_gather (tensor_list : list Tensor) (tensor : Tensor)
  (group : ProcessGroup) (async_op : bool) (profiler : ref)
  (t_call t_ret : Q) : M World (option CommHandler) :=
  (let comm_size := get_world_size group in
   correction <- lift (truediv (comm_size - 1) comm_size) ;;
   let comm_vol := (inject_Z (list_bytes tensor_list) * correction)%Q in
   new profiler comm_vol t_call ;;;
   wk <- torch_collective async_op ;;
   complete profiler async_op wk t_ret)%py.

Definition broadcast (tensor : Tensor) (src : Z) (group : ProcessGroup)
  (async_op : bool) (profiler : ref) (t_call t_ret : Q)
  : M World (option CommHandler) :=
  (let comm_vol :=
     (1 * inject_Z (element_size tensor) * inject_Z (numel tensor))%Q in
   new profiler comm_vol t_call ;;;
   wk <- torch_collective async_op ;;
   complete profiler async_op wk t_ret)%py.

Definition reduce (tensor : Tensor) (dst : Z) (op : ReduceOp)
  (group : ProcessGroup) (async_op : bool) (profiler : ref)
  (t_call t_ret : Q) : M World (option CommHandler) :=
  (let comm_vol :=
     (1 * inject_Z (element_size tensor) * inject_Z (numel tensor))%Q in
   new profiler comm_vol t_call ;;;
   wk <- torch_collective async_op ;;
   complete profiler async_op wk t_ret)%py.

(** What a caller of [dist.<name>(...)] gets back. *)
Inductive handle : Type :=
| Raw (wk : Work)
| Handled (h : CommHandler).

Definition through (b : binding) (async_op : bool)
  (wrapper : ref -> M World (option CommHandler)) : M World (option handle) :=
  match b with
  | Torch => (wk <- torch_collective async_op ;; ret (option_map Raw wk))%py
  | Profiled p => (h <- wrapper p ;; ret (option_map Handled h))%py
  end.

(** The calls [dist.all_reduce(...)], ... as made by client code: whatever
    the name is bound to at the time of the call. *)
Definition dist_all_reduce (tensor : Tensor) (op : ReduceOp)
  (group : ProcessGroup) (async_op : bool) (t_call t_ret : Q)
  : M World (option handle) :=
  fun w => through (d_all_reduce (dist w)) async_op
    (fun p => all_reduce tensor op group async_op p t_call t_ret) w.

Definition dist_all_gather (tensor_list : list Tensor) (tensor : Tensor)
  (group : ProcessGroup) (async_op : bool) (t_call t_ret : Q)
  : M World (option handle) :=
  fun w => through (d_all_gather (dist w)) async_op
    (fun p => all_gather tensor_list tensor group async_op p t_call t_ret) w.

Definition dist_reduce_scatter (output : Tensor) (input_list : list Tensor)
  (op : ReduceOp) (group : ProcessGroup) (async_op : bool) (t_call t_ret : Q)
  : M World (option handle) :=
  fun w => through (d_reduce_scatter (dist w)) async_op
    (fun p => reduce_scatter output input_list op group async_op p t_call t_ret) w.

Definition dist_broadcast (tensor : Tensor) (src : Z) (group : ProcessGroup)
  (async_op : bool) (t_call t_ret : Q) : M World (option handle) :=
  fun w => through (d_broadcast (dist w)) async_op
    (fun p => broadcast tensor src group async_op p t_call t_ret) w.

Definition dist_reduce (tensor : Tensor) (dst : Z) (op : ReduceOp)
  (group : ProcessGroup) (async_op : bool) (t_call t_ret : Q)
  : M World (option handle) :=
  fun w => through (d_reduce (dist w)) async_op
    (fun p => reduce tensor dst op group async_op p t_call t_ret) w.

(** A call of one of the five wrappers with its payload. *)
Inductive collective : Type :=
| AllReduce (tensor : Tensor) (op : ReduceOp) (group : ProcessGroup)
| ReduceScatter (output : Tensor) (input_list : list Tensor) (op : ReduceOp)
    (group : ProcessGroup)
| AllGather (tensor_list : list Tensor) (tensor : Tensor) (group : ProcessGroup)
| Broadcast (tensor : Tensor) (src : Z) (group : ProcessGroup)
| Reduce (tensor : Tensor) (dst : Z) (op : ReduceOp) (group : ProcessGroup).

Definition group_of (c : collective) : ProcessGroup :=
  match c with
  | AllReduce _ _ g | ReduceScatter _ _ _ g | AllGather _ _ g
  | Broadcast _ _ g | Reduce _ _ _ g => g
  end.

Definition issue (c : collective) (async_op : bool) (profiler : ref)
  (t_call t_ret : Q) : M World (option CommHandler) :=
  match c with
  | AllReduce tensor op group =>
      all_reduce tensor op group async_op profiler t_call t_ret
  | ReduceScatter output input_list op group =>
      reduce_scatter output input_list op group async_op profiler t_call t_ret
  | AllGather tensor_list tensor group =>
      all_gather tensor_list tensor group async_op profiler t_call t_ret
  | Broadcast tensor src group =>
      broadcast tensor src group async_op profiler t_call t_ret
  | Reduce tensor dst op group =>
      reduce tensor dst op group async_op profiler t_call t_ret
  end.

(** The process after import and [CommProfiler()] for every profiler. *)
Definition fresh : World :=
  {| objs := fun _ => CommProfiler.reset_state; dist := pristine |}.

End Comm.

(** ** Tensors of the engine, as far as the reducers and metrics use them *)

Module Torch.

(** A 0-dim [torch.float] tensor. *)
Inductive xreal : Type :=
| Fin (r : R)
| PInf
| NInf
| NaN.

(** A 0-dim [torch.int] tensor: a signed 32-bit integer. *)
Record int32 : Type := I32 { signed : Z }.

Definition wrap32 (z : Z) : Z := (z + 2 ^ 31) mod 2 ^ 32 - 2 ^ 31.

Definition in_int32 (z : Z) : Prop := - 2 ^ 31 <= z < 2 ^ 31.

(** [torch.zeros(()).to(torch.int)] and [torch.zeros(()).to(torch.float)] *)
Definition zeros_int : int32 := I32 0.

Definition zeros_float : xreal := Fin 0%R.

(** [a + b] on int tensors, and [a += n] for a count [n]. *)
Definition iadd (a : int32) (n : Z) : int32 := I32 (wrap32 (signed a + n)).

(** [a + b] on float tensors. *)
Definition xadd (a b : xreal) : xreal :=
  match a, b with
  | NaN, _ | _, NaN => NaN
  | PInf, NInf | NInf, PInf => NaN
  | PInf, _ | _, PInf => PInf
  | NInf, _ | _, NInf => NInf
  | Fin x, Fin y => Fin (x + y)%R
  end.

(** The sign of [r / 0.0]. *)
Definition over_zero (r : R) : xreal :=
  match total_order_T r 0%R with
  | inleft (left _) => NInf
  | inleft (right _) => NaN
  | inright _ => PInf
  end.

(** [a / n]: a float tensor by a Python integer. *)
Definition xdiv_int (a : xreal) (n : Z) : xreal :=
  match a with
  | NaN => NaN
  | PInf => if n <? 0 then NInf else PInf
  | NInf => if n <? 0 then PInf else NInf
  | Fin r => if n =? 0 then over_zero r else Fin (r / IZR n)%R
  end.

(** [a / b] on integers (tensors or counts): true division, a float tensor. *)
Definition true_divide (a b : Z) : xreal :=
  if b =? 0 then
    (if a =? 0 then NaN else if a <? 0 then NInf else PInf)
  else Fin (IZR a / IZR b)%R.

(** [torch.exp] *)
Definition exp (a : xreal) : xreal :=
  match a with
  | NaN => NaN
  | PInf => PInf
  | NInf => Fin 0%R
  | Fin r => Fin (Rtrigo_def.exp r)
  end.

(** What [ReduceOp.SUM] adds, per kind of tensor; [torch.stack] of two
    scalars is a pair, reduced element by element. *)
Class Summable (T : Type) : Type := tsum : T -> T -> T.

#[export] Instance Summable_int32 : Summable int32 :=
  fun a b => iadd a (signed b).

#[export] Instance Summable_xreal : Summable xreal := xadd.

#[export] Instance Summable_stack {A B} `{Summable A} `{Summable B}
  : Summable (A * B) :=
  fun x y => (tsum (fst x) (fst y), tsum (snd x) (snd y)).

Definition stack {A} (a b : A) : A * A := (a, b).

End Torch.

(** ** cubework.distributed: the process group and its all-reduce *)

Module Collective.

Import Torch.

(** Modelled from the spec: [ParallelManager.DATA] is not among the sources.
    The spec gives a process group a size P >= 1 and makes every rank take
    part in each collective.  Seen from the calling rank, a collective on the
    group is fixed by what the ranks below and above it contribute. *)
Record ParallelMode (T : Type) : Type := mkMode {
  lower : list T;
  upper : list T
}.
Arguments mkMode {T} lower upper.
Arguments lower {T} p.
Arguments upper {T} p.

(** Modelled from the spec: the attribute [world_size] of a group, the
    number of its ranks, the caller included. *)
Definition world_size {T} (pm : ParallelMode T) : Z :=
  Z.of_nat (length (lower pm) + 1 + length (upper pm)).

(** The contributions in rank order. *)
Definition contributions {T} (tensor : T) (pm : ParallelMode T) : list T :=
  lower pm ++ tensor :: upper pm.

Definition sum_from {T} `{Summable T} (first : T) (rest : list T) : T :=
  fold_left tsum rest first.

(** Modelled from the spec: the value of a SUM reduction, the contributions
    added up in rank order. *)
Definition sum_all {T} `{Summable T} (tensor : T) (pm : ParallelMode T) : T :=
  match contributions tensor pm with
  | [] => tensor
  | first :: rest => sum_from first rest
  end.

(** [all_reduce(tensor, parallel_mode)] receives its tensor by reference: a
    helper of this kind runs on the tensor's storage, returns the reduced
    tensor and leaves the storage in some state. *)
Definition AllReduce (T : Type) : Type := ParallelMode T -> M T T.

(** Modelled from the spec: [cubework.distributed.all_reduce] is not among
    the sources.  The spec describes a blocking SUM all-reduce over the group
    that returns the reduced value, the same on every rank, and counts on the
    caller's tensor being left as it was. *)
Definition all_reduce {T} `{Summable T} : AllReduce T :=
  fun pm tensor => (Returns (sum_all tensor pm), tensor).

(** A helper that does not write to the tensor it is given. *)
Definition keeps_argument {T} (helper : AllReduce T) : Prop :=
  forall (pm : ParallelMode T) (tensor : T), snd (helper pm tensor) = tensor.

(** The single-process group. *)
Definition alone {T} : ParallelMode T := mkMode [] [].

(** The same group, with each contribution seen through [f]. *)
Definition pm_map {A B} (f : A -> B) (pm : ParallelMode A) : ParallelMode B :=
  mkMode (map f (lower pm)) (map f (upper pm)).

(** A group in which the [a] ranks below and the [b] ranks above all
    contribute [x]. *)
Definition uniform {T} (x : T) (a b : nat) : ParallelMode T :=
  mkMode (repeat x a) (repeat x b).

End Collective.

(** ** An all-reduce that delivers the sum in the caller's tensor *)

Module InPlace.

Import Torch Collective.

(** Modelled from the spec: [cubework.distributed.all_reduce] is not among
    the sources.  The collective primitive of the engine,
    [all_reduce(tensor, op, group, async) -> handle|None] in the spec, hands
    back no tensor: the reduced value is delivered in the tensor it is given.
    The sources use it so: the wrapper in [utils/profiling/communication.py]
    keeps only the work handle of [torch_all_reduce(tensor, op, group,
    async_op)], and [_test] of [benchmark/train.py] reads [test_loss.item()]
    after [all_reduce(test_loss)].  A helper that passes its argument on to
    the primitive returns the reduced value and leaves it in that tensor. *)
Definition all_reduce {T} `{Summable T} : AllReduce T :=
  fun pm tensor => let out := sum_all tensor pm in (Returns out, out).

(** The group at the next collective, when every rank has passed its own
    tensor to [all_reduce] and next contributes what was left in it: the sum,
    on every rank. *)
Definition next {T} `{Summable T} (tensor : T) (pm : ParallelMode T)
  : ParallelMode T :=
  uniform (sum_all tensor pm) (length (lower pm)) (length (upper pm)).

End InPlace.

(** ** benchmark/train.py *)

Module Train.

Import Torch Collective.

Section Reducers.

(** The helper imported from [cubework.distributed.collective]. *)
Context {T : Type}.
Variable all_reduce : AllReduce T.

(** The state is the tensor passed by the caller. *)
Definition _data_parallel_sum (DATA : ParallelMode T) : M T T :=
  if 1 <? world_size DATA then all_reduce DATA else get.

End Reducers.

(** Applied to [total_loss], a float tensor. *)
Definition _data_parallel_mean (all_reduce : AllReduce xreal)
  (DATA : ParallelMode xreal) : M xreal xreal :=
  if 1 <? world_size DATA
  then (out <- all_reduce DATA ;; ret (xdiv_int out (world_size DATA)))%py
  else get.

(** The profiling bracket of [_train], with [comm_profiler] not [None]:
    [reset(); start()], the steps, then
    [_, comm_vol, comm_time = comm_profiler.stop()]. *)
Definition profiled_steps (comm_profiler : Comm.ref) (steps : M Comm.World unit)
  : M Comm.World (num * num) :=
  (Comm.reset comm_profiler ;;;
   Comm.start comm_profiler ;;;
   steps ;;;
   r <- Comm.stop comm_profiler ;;
   u <- Comm.lift (unpack3 r) ;;
   let '(_, comm_vol, comm_time) := u in
   ret (comm_vol, comm_time))%py.

End Train.

(** ** cubework/module/metric/metrics.py *)

Module Accuracy.

Import Torch Collective.

Section WithEngine.

(** The engine's tensors for logits and targets, [targets.size(0)], and the
    three counting functions of [metric_std], [metric_2d] and [metric_3d]:
    each returns the number of correct predictions of the local shard. *)
Variables Logits Targets : Type.
Variable size0 : Targets -> Z.
Variables calc_acc calc_acc_2d calc_acc_3d : Logits -> Targets -> Z.

(** The helper imported from [cubework.distributed]. *)
Variable all_reduce : AllReduce (int32 * int32).

Definition _parallel_accuracy (key : option String.string)
  : option (Logits -> Targets -> Z) :=
  match key with
  | None => Some calc_acc
  | Some k =>
      if String.eqb k "1d"%string then Some calc_acc
      else if String.eqb k "2d"%string then Some calc_acc_2d
      else if String.eqb k "3d"%string then Some calc_acc_3d
      else None
  end.

Record t : Type := mk {
  acc : Logits -> Targets -> Z;
  total_correct : int32;
  total_samples : int32
}.

Definition reset : M t unit :=
  modify (fun self =>
    {| acc := acc self;
       total_correct := zeros_int;
       total_samples := zeros_int |}).

(** [__init__], with [tensor_parallel] the value of
    [get_tensor_parallel_mode()]. *)
Definition init (tensor_parallel : option String.string) : result t :=
  match _parallel_accuracy tensor_parallel with
  | None => Raises KeyError
  | Some f =>
      Returns {| acc := f;
                 total_correct := zeros_int;
                 total_samples := zeros_int |}
  end.

Definition forward (logits : Logits) (targets : Targets) (loss : xreal)
  : M t xreal :=
  (self <- get ;;
   let batch_size := size0 targets in
   let correct := acc self logits targets in
   put {| acc := acc self;
          total_correct := iadd (total_correct self) correct;
          total_samples := iadd (total_samples self) batch_size |} ;;;
   ret (true_divide correct batch_size))%py.

(** [torch.stack] builds a new tensor: the helper is given a temporary. *)
Definition value (DATA : ParallelMode (int32 * int32)) : M t xreal :=
  (self <- get ;;
   reduced_values <-
     temporary (stack (total_correct self) (total_samples self))
               (all_reduce DATA) ;;
   ret (true_divide (signed (fst reduced_values))
                    (signed (snd reduced_values))))%py.

(** What this rank puts into the reduction of [value]. *)
Definition share (self : t) : int32 * int32 :=
  stack (total_correct self) (total_samples self).

End WithEngine.

Arguments acc {Logits Targets} t.
Arguments total_correct {Logits Targets} t.
Arguments total_samples {Logits Targets} t.
Arguments reset {Logits Targets}.
Arguments forward {Logits Targets} size0 logits targets loss.
Arguments value {Logits Targets} all_reduce DATA.
Arguments share {Logits Targets} self.

End Accuracy.

Module Perplexity.

Import Torch Collective.

Record t : Type := mk {
  cnt : Z;
  total_loss : xreal
}.

Definition reset_state : t := {| cnt := 0; total_loss := zeros_float |}.

Definition reset : M t unit := put reset_state.

(** [forward(logits, targets, loss)]: only [loss] is used. *)
Definition forward {Logits Targets : Type} (logits : Logits)
  (targets : Targets) (loss : xreal) : M t xreal :=
  (modify (fun self =>
     {| cnt := cnt self + 1;
        total_loss := xadd (total_loss self) loss |}) ;;;
   ret (exp loss))%py.

Definition set_total_loss (self : t) (x : xreal) : t :=
  {| cnt := cnt self; total_loss := x |}.

(** [all_reduce] is given [self.total_loss] itself; [self.cnt] is read
    after the call. *)
Definition value (all_reduce : AllReduce xreal) (DATA : ParallelMode xreal)
  : M t xreal :=
  (reduced <- borrow total_loss set_total_loss (all_reduce DATA) ;;
   self <- get ;;
   let reduced_loss := xdiv_int reduced (cnt self * world_size DATA) in
   ret (exp reduced_loss))%py.

End Perplexity.

(** ** Sequences of issue and completion events on one profiler *)

Module Session.

(** [New vol now]: a wrapper calls [profiler.new(vol)] at clock [now];
    [Finish now]: [profiler.finish()] is called at clock [now], from the
    synchronous tail of a wrapper or from [CommHandler.wait]. *)
Inductive event : Type :=
| New (vol now : Q)
| Finish (now : Q).

Definition stamp (e : event) : Q :=
  match e with
  | New _ now => now
  | Finish now => now
  end.

Definition step (e : event) : M CommProfiler.t unit :=
  match e with
  | New vol now => CommProfiler.new vol now
  | Finish now => CommProfiler.finish now
  end.

Fixpoint run (tr : list event) : M CommProfiler.t unit :=
  match tr with
  | [] => ret tt
  | e :: tr' => (step e ;;; run tr')%py
  end.

(** Completions never outnumber issues, in any prefix; [d] operations are
    outstanding at the start. *)
Fixpoint balanced_from (d : nat) (tr : list event) : bool :=
  match tr with
  | [] => true
  | New _ _ :: tr' => balanced_from (S d) tr'
  | Finish _ :: tr' =>
      match d with
      | O => false
      | S d' => balanced_from d' tr'
      end
  end.

Definition balanced (tr : list event) : bool := balanced_from 0 tr.

(** The clock never runs backwards: every stamp is at least the one before,
    starting from [t]. *)
Fixpoint nondecreasing_from (t : Q) (tr : list event) : bool :=
  match tr with
  | [] => true
  | e :: tr' => Qle_bool t (stamp e) && nondecreasing_from (stamp e) tr'
  end.

Fixpoint last_stamp (t : Q) (tr : list event) : Q :=
  match tr with
  | [] => t
  | e :: tr' => last_stamp (stamp e) tr'
  end.

(** *** The busy windows, in the spec's words

    A window is busy from the first collective issued (outstanding
    operations 0 to 1) until the last outstanding one completes (back
    to 0).  [spans_from d o tr] lists the windows closed by [tr] as pairs
    (opening stamp, closing stamp), with [d] operations outstanding at the
    start in a window opened at [o]; [open_from] is the opening stamp of the
    window still open at the end, if any. *)
Fixpoint spans_from (d : nat) (o : Q) (tr : list event) : list (Q * Q) :=
  match tr with
  | [] => []
  | New _ now :: tr' =>
      spans_from (S d) (match d with O => now | S _ => o end) tr'
  | Finish now :: tr' =>
      match d with
      | O => spans_from O o tr'
      | S O => (o, now) :: spans_from O o tr'
      | S (S d') => spans_from (S d') o tr'
      end
  end.

Fixpoint open_from (d : nat) (o : Q) (tr : list event) : option Q :=
  match tr with
  | [] => match d with O => None | S _ => Some o end
  | New _ now :: tr' =>
      open_from (S d) (match d with O => now | S _ => o end) tr'
  | Finish _ :: tr' => open_from (Nat.pred d) o tr'
  end.

Fixpoint depth_from (d : nat) (tr : list event) : nat :=
  match tr with
  | [] => d
  | New _ _ :: tr' => depth_from (S d) tr'
  | Finish _ :: tr' => depth_from (Nat.pred d) tr'
  end.

Definition spans (tr : list event) : list (Q * Q) := spans_from 0 0%Q tr.

Definition open_window (tr : list event) : option Q := open_from 0 0%Q tr.

Definition depth (tr : list event) : nat := depth_from 0 tr.

(** Total length of a list of windows. *)
Definition busy_time (l : list (Q * Q)) : Q :=
  fold_right (fun w acc => (snd w - fst w) + acc)%Q 0%Q l.

(** The profiler has [d] operations outstanding, in a window opened at [o]
    when [d] is not 0. *)
Definition tracks (s : CommProfiler.t) (d : nat) (o : Q) : Prop :=
  CommProfiler.running_ops s = Z.of_nat d /\
  CommProfiler.start_time s = match d with O => None | S _ => Some o end.

End Session.

(** ** The spec's side: what it says is returned and recorded *)

Module Model.

(** The triple (total_count, total_volume, total_time) that the spec gives
    as the result of [stop()], and that [_train] unpacks. *)
Definition window_totals (o : CommProfiler.t) : obj :=
  PyTuple [PyInt (CommProfiler.total_cnt o);
           PyFloat (CommProfiler.total_vol o);
           PyFloat (CommProfiler.total_time o)].

(** The throughput model, for a group of [P] processes: all-reduce of [B]
    bytes, reduce-scatter or all-gather of chunks of [bs] bytes, broadcast
    or point-to-point reduce of [B] bytes. *)
Definition all_reduce_volume (P B : Z) : Q :=
  (2 * (inject_Z P - 1) / inject_Z P * inject_Z B)%Q.

(** The sum of a list of integers. *)
Definition sumZ (bs : list Z) : Z := fold_right Z.add 0 bs.

Definition gather_volume (P : Z) (bs : list Z) : Q :=
  ((inject_Z P - 1) / inject_Z P * inject_Z (sumZ bs))%Q.

Definition transfer_volume (B : Z) : Q := inject_Z B.

(** The sum of a list of reals. *)
Definition sumR (l : list R) : R := fold_right Rplus 0%R l.

(** The outcome of a call: no exception, and [v] more bytes on the
    profiler [p] than in [w0]. *)
Definition records {A} (p : Comm.ref) (w0 : Comm.World)
  (r : result A * Comm.World) (v : Q) : Prop :=
  is_raise (fst r) = false /\
  (CommProfiler.total_vol (Comm.objs (snd r) p)
   == CommProfiler.total_vol (Comm.objs w0 p) + v)%Q.

End Model.

(** ** Counting the events of a session *)

Module Tally.

Import Session.

(** The calls of [new] in a sequence, the calls of [finish], and the volume
    handed to [new]. *)
Fixpoint issued (tr : list event) : Z :=
  match tr with
  | [] => 0
  | New _ _ :: tr' => 1 + issued tr'
  | Finish _ :: tr' => issued tr'
  end.

Fixpoint completed (tr : list event) : Z :=
  match tr with
  | [] => 0
  | New _ _ :: tr' => completed tr'
  | Finish _ :: tr' => 1 + completed tr'
  end.

Fixpoint volume (tr : list event) : Q :=
  match tr with
  | [] => 0%Q
  | New vol _ :: tr' => (vol + volume tr')%Q
  | Finish _ :: tr' => volume tr'
  end.

(** Synchronous collectives one after the other: each is [new] at its
    entry and [finish] when the engine returns.  A call is given by its
    volume and the two clock readings. *)
Definition sync_calls (calls : list (Q * Q * Q)) : list event :=
  flat_map (fun c => [New (fst (fst c)) (snd (fst c)); Finish (snd c)]) calls.

(** The time spent inside the calls. *)
Definition durations (calls : list (Q * Q * Q)) : Q :=
  fold_right (fun c acc => (snd c - snd (fst c)) + acc)%Q 0%Q calls.

(** The only exception of [finish] needs [running_ops] at 1 with no window
    open; a profiler that is [guarded] is not in that state. *)
Definition guarded (s : CommProfiler.t) : Prop :=
  CommProfiler.start_time s = None -> CommProfiler.running_ops s <= 0.

End Tally.

(** ** Calls in a row *)

Module Batches.

(** [for x in l: f(x)], collecting what the calls return; the first
    exception ends the loop. *)
Fixpoint for_each {S A B} (f : A -> M S B) (l : list A) : M S (list B) :=
  match l with
  | [] => ret []
  | x :: l' => bind (f x) (fun y => bind (for_each f l') (fun ys => ret (y :: ys)))
  end.

End Batches.

(** ** Start-up code: exceptions beyond those of the profiler and metrics *)

Module Startup.

Inductive exn : Type :=
| Builtin (e : Py.exn)
| AssertionError
| ValueError.

Inductive result (A : Type) : Type :=
| Returns (a : A)
| Raises (e : exn).
Arguments Returns {A} a.
Arguments Raises {A} e.

Definition M (S A : Type) : Type := S -> result A * S.

Definition ret {S A} (a : A) : M S A := fun s => (Returns a, s).

Definition bind {S A B} (m : M S A) (k : A -> M S B) : M S B :=
  fun s =>
    match m s with
    | (Returns a, s') => k a s'
    | (Raises e, s') => (Raises e, s')
    end.

(** A computation that cannot change the state. *)
Definition pure {S A} (r : result A) : M S A := fun s => (r, s).

Definition is_raise {A} (r : result A) : bool :=
  match r with Raises _ => true | Returns _ => false end.

End Startup.

Declare Scope startup_scope.
Delimit Scope startup_scope with startup.
Notation "x <- m ;; k" := (Startup.bind m (fun x => k))
(at level 61, m at next level, right associativity) : startup_scope.
Notation "m ;;; k" := (Startup.bind m (fun _ => k))
(at level 61, right associativity) : startup_scope.

(** ** cubework/initialize.py *)

Module Initialize.

Import Startup.
Local Open Scope string_scope.

(** [os.environ]: a mapping from names to strings. *)
Definition environ : Type := String.string -> option String.string.

(** [os.environ[key] = value] *)
Definition setitem (env : environ) (key value : String.string) : environ :=
  fun k => if String.eqb k key then Some value else env k.

(** [os.environ[key]] *)
Definition getitem (env : environ) (key : String.string)
  : result String.string :=
  match env key with
  | Some v => Returns v
  | None => Raises (Builtin KeyError)
  end.

(** [str(n)] and the [{n}] of an f-string, for an integer. *)
Definition str (n : Z) : String.string :=
  DecimalString.NilZero.string_of_int (Z.to_int n).

(** What [parse_args] returns, as far as this file reads it. *)
Record Args : Type := mkArgs {
  backend : option String.string;
  tensor_parallel_size : option Z;
  seed : option Z;
  tensor_parallel : option String.string
}.

(** The calls into [torch.distributed], [cubework.distributed] and
    [cubework.utils], which this file only orders and feeds; the assignment
    [env.mode = ...] is listed with them. *)
Inductive call : Type :=
| init_process_group (rank world_size : Z) (backend init_method : String.string)
| init_global
| init_data_parallel (data_parallel_size : Z)
| set_seed (seed : Z)
| set_mode (mode : option String.string)
| init_tensor_parallel (tensor_parallel_size : option Z) (seed : Z)
| set_device (local_rank : Z).

(** The state is the list of the calls made so far, the latest last. *)
Definition perform (c : call) : M (list call) unit :=
  fun log => (Returns tt, (log ++ [c])%list).

Definition mode_eqb (a b : option String.string) : bool :=
  match a, b with
  | None, None => true
  | Some x, Some y => String.eqb x y
  | _, _ => false
  end.

Definition _DEFAULT_SEED : Z := 1024.

(** [a // b] on Python integers. *)
Definition floordiv (a b : Z) : result Z :=
  if b =? 0 then Raises (Builtin ZeroDivisionError) else Returns (a / b).

Section WithRuntime.

(** Python's [int] on a string, and the constant [ALLOWED_MODES] of
    [cubework.global_vars]. *)
Variable int : String.string -> result Z.
Variable ALLOWED_MODES : list (option String.string).

(** [int(os.environ[key])] *)
Definition int_of_env (env : environ) (key : String.string) : result Z :=
  match getitem env key with
  | Returns v => int v
  | Raises e => Raises e
  end.

(** [initialize_distributed], after [args = parse_args(parser)]. *)
Definition initialize_distributed (env : environ) (args : Args)
  : M (list call) unit :=
  (rank <- pure (int_of_env env "RANK") ;;
   local_rank <- pure (int_of_env env "LOCAL_RANK") ;;
   world_size <- pure (int_of_env env "WORLD_SIZE") ;;
   addr <- pure (getitem env "MASTER_ADDR") ;;
   port <- pure (int_of_env env "MASTER_PORT") ;;
   let init_method := String.append "tcp://"
                        (String.append addr (String.append ":" (str port))) in
   let backend := match backend args with
                  | None => "nccl"%string
                  | Some b => b
                  end in
   perform (init_process_group rank world_size backend init_method) ;;;
   perform init_global ;;;
   data_parallel_size <-
     pure (match tensor_parallel_size args with
           | None => Returns world_size
           | Some tp => floordiv world_size tp
           end) ;;
   perform (init_data_parallel data_parallel_size) ;;;
   let seed := match seed args with
               | Some s => s
               | None => _DEFAULT_SEED
               end in
   perform (set_seed seed) ;;;
   perform (set_mode (tensor_parallel args)) ;;;
   (if existsb (mode_eqb (tensor_parallel args)) ALLOWED_MODES
    then ret tt else pure (Raises AssertionError)) ;;;
   (match tensor_parallel args with
    | Some _ => perform (init_tensor_parallel (tensor_parallel_size args) seed)
    | None => ret tt
    end) ;;;
   perform (set_device local_rank))%startup.

End WithRuntime.

(** The reading of [int] on the numerals that [str] writes: an optional
    minus sign and decimal digits.  (Python's [int] accepts more, such as
    surrounding spaces.) *)
Definition int_of_numeral (s : String.string) : result Z :=
  match DecimalString.NilZero.int_of_string s with
  | Some d => Returns (Z.of_int d)
  | None => Raises ValueError
  end.

End Initialize.

(** ** tests/test_1d/test_1d.py *)

Module Test1d.

Import Startup Initialize.
Local Open Scope string_scope.

Section WithRuntime.

Variable int : String.string -> result Z.
Variable ALLOWED_MODES : list (option String.string).

(** The nine checks of [check_1d_modules], in their order. *)
Variable checks : M (list call) unit.

(** [run(rank, world_size, port)] in a process whose environment is [env]
    and whose command line parses to [args]. *)
Definition run (rank world_size port : Z) (env : environ) (args : Args)
  : M (list call) unit :=
  (let env := setitem env "RANK" (str rank) in
   let env := setitem env "LOCAL_RANK" (str rank) in
   let env := setitem env "WORLD_SIZE" (str world_size) in
   let env := setitem env "MASTER_ADDR" "localhost" in
   let env := setitem env "MASTER_PORT" (str port) in
   initialize_distributed int ALLOWED_MODES env args ;;;
   checks)%startup.

End WithRuntime.

End Test1d.

(** ** benchmark/train.py: the optimizer schedule of [_train] *)

Module Driver.

Import Startup.

(** In [_train]: [num_steps], from [len(train_data)] and
    [args.steps_per_epoch]. *)
Definition num_steps (len_train_data : Z) (steps_per_epoch : option Z) : Z :=
  match steps_per_epoch with
  | Some k => if k <? len_train_data then k else len_train_data
  | None => len_train_data
  end.

(** [range(n)] *)
Definition range (n : Z) : list Z := map Z.of_nat (seq 0 (Z.to_nat n)).

(** In [_train]: the test
    [(i + 1) % args.gradient_accumulation or i + 1 == num_steps] that guards
    the optimizer step of iteration [i]. *)
Definition steps_optimizer (gradient_accumulation n i : Z) : result bool :=
  if gradient_accumulation =? 0 then Raises (Builtin ZeroDivisionError)
  else Returns (negb ((i + 1) mod gradient_accumulation =? 0) || (i + 1 =? n)).

(** The iterations of one epoch, with whether each steps the optimizer. *)
Definition schedule (gradient_accumulation len_train_data : Z)
  (steps_per_epoch : option Z) : list (result bool) :=
  let n := num_steps len_train_data steps_per_epoch in
  map (steps_optimizer gradient_accumulation n) (range n).

Definition stepped (r : result bool) : bool :=
  match r with Returns true => true | _ => false end.

End Driver.

(** * Properties *)

Import CommProfiler.

(** ** Bookkeeping of the store and of the two profiler methods *)

Lemma upd_same (p : Comm.ref) (o : CommProfiler.t) (h : Comm.ref -> CommProfiler.t) :
  Comm.upd p o h p = o.
Proof. unfold Comm.upd. now rewrite Nat.eqb_refl. Qed.

Lemma new_runs (vol now : Q) (s : CommProfiler.t) :
  CommProfiler.new vol now s =
  (Returns tt,
   {| running_ops := running_ops s + 1;
      total_time := total_time s;
      total_vol := (total_vol s + vol)%Q;
      total_cnt := total_cnt s + 1;
      start_time := Some (match start_time s with None => now | Some t0 => t0 end) |}).
Proof. unfold CommProfiler.new, modify. now destruct (start_time s). Qed.

(** [finish] when it brings [running_ops] to 0 with a window open. *)
Lemma finish_closes (now t0 : Q) (s : CommProfiler.t) :
  running_ops s = 1 -> start_time s = Some t0 ->
  CommProfiler.finish now s =
  (Returns tt,
   {| running_ops := running_ops s - 1;
      total_time := (total_time s + (now - t0))%Q;
      total_vol := total_vol s;
      total_cnt := total_cnt s;
      start_time := None |}).
Proof.
  intros Hops Hst. unfold CommProfiler.finish, bind, modify, get, put. simpl.
  rewrite Hops, Hst. reflexivity.
Qed.

(** [finish] when other operations stay outstanding. *)
Lemma finish_inner (now : Q) (s : CommProfiler.t) :
  running_ops s <> 1 ->
  CommProfiler.finish now s =
  (Returns tt,
   {| running_ops := running_ops s - 1;
      total_time := total_time s;
      total_vol := total_vol s;
      total_cnt := total_cnt s;
      start_time := start_time s |}).
Proof.
  intros Hops. unfold CommProfiler.finish, bind, modify, get, put, ret. simpl.
  destruct (running_ops s - 1 =? 0) eqn:E; [ | reflexivity ].
  apply Z.eqb_eq in E. lia.
Qed.

(** ** CommProfiler.stop *)

(** C1 (the code departs from the spec).  [stop] does restore the five original entry
    points, but it returns [None], never the triple
    (total_count, total_volume, total_time): after [reset(); start(); stop()]
    with no collective issued the result is [None], not (0, 0, 0), and the
    unpacking [_, comm_vol, comm_time = comm_profiler.stop()] of [_train]
    raises whatever the steps in between did. *)
Theorem stop_returns_None :
  forall (p : Comm.ref) (w : Comm.World),
    Comm.dist (snd (Comm.stop p w)) = Comm.pristine /\
    fst (Comm.stop p w) = Returns PyNone /\
    fst (Comm.stop p w) <> Returns (Model.window_totals (Comm.objs w p)) /\
    (let r := (Comm.reset p ;;; Comm.start p ;;; Comm.stop p)%py w in
     Comm.objs (snd r) p = CommProfiler.reset_state /\
     fst r = Returns PyNone /\
     fst r <> Returns (PyTuple [PyInt 0; PyFloat 0; PyFloat 0])) /\
    (forall steps : M Comm.World unit,
        is_raise (fst (Train.profiled_steps p steps w)) = true) /\
    fst (Train.profiled_steps p (ret tt) w) = Raises TypeError.
Proof.
  intros p w. repeat split; try reflexivity; try discriminate.
  - cbn. apply upd_same.
  - intros steps. unfold Train.profiled_steps, bind. cbn.
    destruct (steps _) as [[[] | e] w']; reflexivity.
Qed.

(** ** Recorded volume of the five wrappers *)

(** [finish] with a window open never raises. *)
Lemma finish_runs (now t0 : Q) (s : CommProfiler.t) :
  start_time s = Some t0 ->
  CommProfiler.finish now s =
  (Returns tt,
   {| running_ops := running_ops s - 1;
      total_time := if running_ops s =? 1
                    then (total_time s + (now - t0))%Q else total_time s;
      total_vol := total_vol s;
      total_cnt := total_cnt s;
      start_time := if running_ops s =? 1 then None else Some t0 |}).
Proof.
  intros Hst. destruct (Z.eqb_spec (running_ops s) 1) as [E | E].
  - now apply finish_closes.
  - rewrite <- Hst. now apply finish_inner.
Qed.

(** What every wrapper does after computing its volume. *)
Lemma record_then_complete (p : Comm.ref) (async_op : bool) (vol t_call t_ret : Q)
  (w : Comm.World) :
  let r := (Comm.new p vol t_call ;;;
            wk <- Comm.torch_collective async_op ;;
            Comm.complete p async_op wk t_ret)%py w in
  fst r = Returns (if async_op
                   then Some (Comm.mkHandler p (Some Comm.WorkToken))
                   else None) /\
  Comm.dist (snd r) = Comm.dist w /\
  total_vol (Comm.objs (snd r) p) = (total_vol (Comm.objs w p) + vol)%Q /\
  total_cnt (Comm.objs (snd r) p) = total_cnt (Comm.objs w p) + 1 /\
  running_ops (Comm.objs (snd r) p) =
    (if async_op then running_ops (Comm.objs w p) + 1
     else running_ops (Comm.objs w p)).
Proof.
  unfold Comm.new, Comm.on, bind. rewrite new_runs.
  destruct async_op.
  - cbn. rewrite upd_same. cbn. repeat split.
  - unfold Comm.torch_collective, Comm.complete, Comm.finish, Comm.on, bind, ret.
    cbv beta iota. cbv beta iota delta [Comm.objs]. rewrite upd_same.
    erewrite finish_runs by reflexivity.
    cbn. rewrite upd_same. cbn. repeat split; lia.
Qed.

Lemma truediv_nonzero (a b : Z) :
  b <> 0 -> truediv a b = Returns (inject_Z a / inject_Z b)%Q.
Proof.
  intros Hb. unfold truediv. destruct (Z.eqb_spec b 0); [ contradiction | reflexivity ].
Qed.

Lemma inject_Z_nonzero (P : Z) : 1 <= P -> ~ (inject_Z P == 0)%Q.
Proof.
  intros HP E. unfold Qeq, inject_Z in E. simpl in E. lia.
Qed.

Lemma inject_Z_pred (P : Z) : (inject_Z (P - 1) == inject_Z P - 1)%Q.
Proof.
  unfold Z.sub. rewrite inject_Z_plus. reflexivity.
Qed.

(** The loop of [reduce_scatter] and [all_gather] adds up the byte sizes. *)
Lemma list_bytes_sum (l : list Comm.Tensor) :
  Comm.list_bytes l = Model.sumZ (map Comm.nbytes l).
Proof.
  unfold Comm.list_bytes.
  assert (H : forall acc,
             fold_left (fun a tensor =>
                          a + Comm.element_size tensor * Comm.numel tensor) l acc
             = acc + Model.sumZ (map Comm.nbytes l)).
  { induction l as [| x l IH]; intros acc; simpl.
    - lia.
    - rewrite IH. unfold Comm.nbytes. lia. }
  rewrite H. lia.
Qed.

(** The volume expressions of the three kinds of wrapper against the
    model. *)
Lemma all_reduce_expr (P es n : Z) :
  1 <= P ->
  (inject_Z (2 * (P - 1)) / inject_Z P * inject_Z es * inject_Z n
   == Model.all_reduce_volume P (es * n))%Q.
Proof.
  intros HP. unfold Model.all_reduce_volume.
  rewrite !inject_Z_mult, inject_Z_pred.
  change (inject_Z 2) with 2%Q.
  field. now apply inject_Z_nonzero.
Qed.

Lemma gather_expr (P : Z) (l : list Comm.Tensor) :
  1 <= P ->
  (inject_Z (Comm.list_bytes l) * (inject_Z (P - 1) / inject_Z P)
   == Model.gather_volume P (map Comm.nbytes l))%Q.
Proof.
  intros HP. unfold Model.gather_volume.
  rewrite list_bytes_sum, inject_Z_pred.
  field. now apply inject_Z_nonzero.
Qed.

Lemma transfer_expr (es n : Z) :
  (1 * inject_Z es * inject_Z n == Model.transfer_volume (es * n))%Q.
Proof.
  unfold Model.transfer_volume. rewrite inject_Z_mult. ring.
Qed.

(** A call through [dist] inside a window reaches the wrapper. *)
Lemma through_profiled (p : Comm.ref) (async_op : bool)
  (wrapper : Comm.ref -> M Comm.World (option Comm.CommHandler)) (w : Comm.World) :
  let r := Comm.through (Comm.Profiled p) async_op wrapper w in
  fst r = match fst (wrapper p w) with
          | Returns h => Returns (option_map Comm.Handled h)
          | Raises e => Raises e
          end /\
  snd r = snd (wrapper p w).
Proof.
  unfold Comm.through, bind. destruct (wrapper p w) as [[h | e] w']; split; reflexivity.
Qed.

(** Each wrapper is "compute the volume, record it, call the engine,
    complete"; the first two need P <> 0 for the division. *)
Lemma all_reduce_unfold tensor op group async_op p t_call t_ret w :
  Comm.get_world_size group <> 0 ->
  Comm.all_reduce tensor op group async_op p t_call t_ret w =
  (Comm.new p
     (inject_Z (2 * (Comm.get_world_size group - 1))
      / inject_Z (Comm.get_world_size group)
      * inject_Z (Comm.element_size tensor) * inject_Z (Comm.numel tensor))%Q
     t_call ;;;
   wk <- Comm.torch_collective async_op ;;
   Comm.complete p async_op wk t_ret)%py w.
Proof.
  intros HP. unfold Comm.all_reduce, Comm.lift.
  unfold bind at 1. now rewrite (truediv_nonzero _ _ HP).
Qed.

Lemma reduce_scatter_unfold output input_list op group async_op p t_call t_ret w :
  Comm.get_world_size group <> 0 ->
  Comm.reduce_scatter output input_list op group async_op p t_call t_ret w =
  (Comm.new p
     (inject_Z (Comm.list_bytes input_list)
      * (inject_Z (Comm.get_world_size group - 1)
         / inject_Z (Comm.get_world_size group)))%Q
     t_call ;;;
   wk <- Comm.torch_collective async_op ;;
   Comm.complete p async_op wk t_ret)%py w.
Proof.
  intros HP. unfold Comm.reduce_scatter, Comm.lift.
  unfold bind at 1. now rewrite (truediv_nonzero _ _ HP).
Qed.

Lemma all_gather_unfold tensor_list tensor group async_op p t_call t_ret w :
  Comm.get_world_size group <> 0 ->
  Comm.all_gather tensor_list tensor group async_op p t_call t_ret w =
  (Comm.new p
     (inject_Z (Comm.list_bytes tensor_list)
      * (inject_Z (Comm.get_world_size group - 1)
         / inject_Z (Comm.get_world_size group)))%Q
     t_call ;;;
   wk <- Comm.torch_collective async_op ;;
   Comm.complete p async_op wk t_ret)%py w.
Proof.
  intros HP. unfold Comm.all_gather, Comm.lift.
  unfold bind at 1. now rewrite (truediv_nonzero _ _ HP).
Qed.

Lemma records_through p w0 w async_op wrapper v :
  Comm.objs w = Comm.objs w0 ->
  (exists h vol,
      fst (wrapper p w) = Returns h /\
      total_vol (Comm.objs (snd (wrapper p w)) p)
      = (total_vol (Comm.objs w p) + vol)%Q /\
      (vol == v)%Q) ->
  Model.records p w0 (Comm.through (Comm.Profiled p) async_op wrapper w) v.
Proof.
  intros Hw (h & vol & Hret & Hvol & Hv).
  destruct (through_profiled p async_op wrapper w) as [Hf Hs].
  unfold Model.records. cbv zeta in Hf, Hs. rewrite Hf, Hs, Hret, Hvol, Hw, Hv.
  split; reflexivity.
Qed.

(** The five wrappers against the throughput model, inside the window
    opened by [start p]. *)
Ltac settle_wrapper p async_op t_call t_ret w1 :=
  match goal with |- context [Comm.new p ?vol _] =>
    destruct (record_then_complete p async_op vol t_call t_ret w1)
      as (Hret & _ & Hvol & _);
    eexists _, _; split; [ exact Hret | split; [ exact Hvol | ] ]
  end.

Section InWindow.

Variables (p : Comm.ref) (w : Comm.World).
Variables (async_op : bool) (t_call t_ret : Q).

Let w1 : Comm.World := snd (Comm.start p w).

Lemma all_reduce_in_window tensor op group :
  1 <= Comm.group_size group ->
  Model.records p w
    (Comm.dist_all_reduce tensor op group async_op t_call t_ret w1)
    (Model.all_reduce_volume (Comm.get_world_size group) (Comm.nbytes tensor)).
Proof.
  intros HP.
  assert (HP0 : Comm.get_world_size group <> 0) by (unfold Comm.get_world_size; lia).
  apply records_through; [ reflexivity | ].
  rewrite (all_reduce_unfold _ _ _ _ _ _ _ _ HP0).
  settle_wrapper p async_op t_call t_ret w1.
  now apply all_reduce_expr.
Qed.

Lemma reduce_scatter_in_window output input_list op group :
  1 <= Comm.group_size group ->
  Model.records p w
    (Comm.dist_reduce_scatter output input_list op group async_op t_call t_ret w1)
    (Model.gather_volume (Comm.get_world_size group)
       (map Comm.nbytes input_list)).
Proof.
  intros HP.
  assert (HP0 : Comm.get_world_size group <> 0) by (unfold Comm.get_world_size; lia).
  apply records_through; [ reflexivity | ].
  rewrite (reduce_scatter_unfold _ _ _ _ _ _ _ _ _ HP0).
  settle_wrapper p async_op t_call t_ret w1.
  now apply gather_expr.
Qed.

Lemma all_gather_in_window tensor_list tensor group :
  1 <= Comm.group_size group ->
  Model.records p w
    (Comm.dist_all_gather tensor_list tensor group async_op t_call t_ret w1)
    (Model.gather_volume (Comm.get_world_size group)
       (map Comm.nbytes tensor_list)).
Proof.
  intros HP.
  assert (HP0 : Comm.get_world_size group <> 0) by (unfold Comm.get_world_size; lia).
  apply records_through; [ reflexivity | ].
  rewrite (all_gather_unfold _ _ _ _ _ _ _ _ HP0).
  settle_wrapper p async_op t_call t_ret w1.
  now apply gather_expr.
Qed.

(** No group size is asked for by the last two. *)
Lemma broadcast_in_window tensor src group :
  Model.records p w
    (Comm.dist_broadcast tensor src group async_op t_call t_ret w1)
    (Model.transfer_volume (Comm.nbytes tensor)).
Proof.
  apply records_through; [ reflexivity | ].
  unfold Comm.broadcast.
  settle_wrapper p async_op t_call t_ret w1.
  apply transfer_expr.
Qed.

Lemma reduce_in_window tensor dst op group :
  Model.records p w
    (Comm.dist_reduce tensor dst op group async_op t_call t_ret w1)
    (Model.transfer_volume (Comm.nbytes tensor)).
Proof.
  apply records_through; [ reflexivity | ].
  unfold Comm.reduce.
  settle_wrapper p async_op t_call t_ret w1.
  apply transfer_expr.
Qed.

End InWindow.

(** C2.  Inside a profiling window ([start] has rebound the entry points to
    the profiler [p]) and for a group of size P >= 1, each of the five
    collectives, synchronous or not, returns without raising and adds to
    [total_vol] the volume of the throughput model: 2*(P-1)/P*B for
    all-reduce, (P-1)/P * sum(b_i) for reduce-scatter and all-gather, B for
    broadcast and point-to-point reduce. *)
Theorem recorded_volume_is_model :
  forall (group : Comm.ProcessGroup) (p : Comm.ref) (w : Comm.World)
         (op : Comm.ReduceOp) (async_op : bool) (t_call t_ret : Q),
    1 <= Comm.group_size group ->
    let P := Comm.get_world_size group in
    let w1 := snd (Comm.start p w) in
    (forall tensor,
        Model.records p w
          (Comm.dist_all_reduce tensor op group async_op t_call t_ret w1)
          (Model.all_reduce_volume P (Comm.nbytes tensor))) /\
    (forall output input_list,
        Model.records p w
          (Comm.dist_reduce_scatter output input_list op group async_op
             t_call t_ret w1)
          (Model.gather_volume P (map Comm.nbytes input_list))) /\
    (forall tensor_list tensor,
        Model.records p w
          (Comm.dist_all_gather tensor_list tensor group async_op
             t_call t_ret w1)
          (Model.gather_volume P (map Comm.nbytes tensor_list))) /\
    (forall tensor src,
        Model.records p w
          (Comm.dist_broadcast tensor src group async_op t_call t_ret w1)
          (Model.transfer_volume (Comm.nbytes tensor))) /\
    (forall tensor dst,
        Model.records p w
          (Comm.dist_reduce tensor dst op group async_op t_call t_ret w1)
          (Model.transfer_volume (Comm.nbytes tensor))).
Proof.
  intros group p w op async_op t_call t_ret HP P w1.
  repeat apply conj; intros.
  - now apply all_reduce_in_window.
  - now apply reduce_scatter_in_window.
  - now apply all_gather_in_window.
  - apply broadcast_in_window.
  - apply reduce_in_window.
Qed.

(** ** The single-process group *)

Lemma records_equiv {A} p w0 (r : result A * Comm.World) (v v' : Q) :
  (v == v')%Q -> Model.records p w0 r v -> Model.records p w0 r v'.
Proof.
  intros Hv [Hr Hvol]. split; [ exact Hr | ]. now rewrite <- Hv.
Qed.

Lemma all_reduce_volume_alone (B : Z) : (Model.all_reduce_volume 1 B == 0)%Q.
Proof. unfold Model.all_reduce_volume. change (inject_Z 1) with 1%Q. field. Qed.

Lemma gather_volume_alone (bs : list Z) : (Model.gather_volume 1 bs == 0)%Q.
Proof. unfold Model.gather_volume. change (inject_Z 1) with 1%Q. field. Qed.

(** C3 (as stated, refuted).  In a single-process group a synchronous
    broadcast of a tensor of 1024 elements of 4 bytes, issued in a fresh
    window, records 4096 bytes, not 0. *)
Lemma broadcast_alone_records_bytes :
  (total_vol
     (Comm.objs
        (snd (Comm.dist_broadcast (Comm.mkTensor 4 1024) 0 (Comm.mkGroup 1)
                false 0 1 (snd (Comm.start 0%nat Comm.fresh))))
        0%nat) == 4096)%Q /\
  ~ (total_vol
       (Comm.objs
          (snd (Comm.dist_broadcast (Comm.mkTensor 4 1024) 0 (Comm.mkGroup 1)
                  false 0 1 (snd (Comm.start 0%nat Comm.fresh))))
          0%nat) == 0)%Q.
Proof.
  split.
  - vm_compute. reflexivity.
  - intros H. vm_compute in H. discriminate H.
Qed.

(** C3 (amended).  In a group of size 1, inside a window, all-reduce,
    reduce-scatter and all-gather record a volume of 0, while broadcast and
    point-to-point reduce record the full byte size of the tensor: their
    volume does not depend on the group size. *)
Theorem single_process_volumes :
  forall (group : Comm.ProcessGroup) (p : Comm.ref) (w : Comm.World)
         (op : Comm.ReduceOp) (async_op : bool) (t_call t_ret : Q),
    Comm.group_size group = 1 ->
    let w1 := snd (Comm.start p w) in
    (forall tensor,
        Model.records p w
          (Comm.dist_all_reduce tensor op group async_op t_call t_ret w1) 0) /\
    (forall output input_list,
        Model.records p w
          (Comm.dist_reduce_scatter output input_list op group async_op
             t_call t_ret w1) 0) /\
    (forall tensor_list tensor,
        Model.records p w
          (Comm.dist_all_gather tensor_list tensor group async_op
             t_call t_ret w1) 0) /\
    (forall tensor src,
        Model.records p w
          (Comm.dist_broadcast tensor src group async_op t_call t_ret w1)
          (inject_Z (Comm.nbytes tensor))) /\
    (forall tensor dst,
        Model.records p w
          (Comm.dist_reduce tensor dst op group async_op t_call t_ret w1)
          (inject_Z (Comm.nbytes tensor))).
Proof.
  intros group p w op async_op t_call t_ret HP w1.
  assert (HP1 : 1 <= Comm.group_size group) by lia.
  assert (E : Comm.get_world_size group = 1) by exact HP.
  repeat apply conj; intros.
  - eapply records_equiv; [ | now apply all_reduce_in_window ].
    rewrite E. apply all_reduce_volume_alone.
  - eapply records_equiv; [ | now apply reduce_scatter_in_window ].
    rewrite E. apply gather_volume_alone.
  - eapply records_equiv; [ | now apply all_gather_in_window ].
    rewrite E. apply gather_volume_alone.
  - apply broadcast_in_window.
  - apply reduce_in_window.
Qed.

(** ** Asynchronous collectives and their handle *)

Lemma comm_new_runs (p : Comm.ref) (vol now : Q) (w : Comm.World) :
  Comm.new p vol now w =
  (Returns tt,
   {| Comm.objs :=
        Comm.upd p
          {| running_ops := running_ops (Comm.objs w p) + 1;
             total_time := total_time (Comm.objs w p);
             total_vol := (total_vol (Comm.objs w p) + vol)%Q;
             total_cnt := total_cnt (Comm.objs w p) + 1;
             start_time := Some (match start_time (Comm.objs w p) with
                                 | None => now
                                 | Some t0 => t0
                                 end) |}
          (Comm.objs w);
      Comm.dist := Comm.dist w |}).
Proof. unfold Comm.new, Comm.on. now rewrite new_runs. Qed.

(** After [new], [finish] returns. *)
Lemma comm_finish_after_new (p : Comm.ref) (vol t_call now : Q) (w : Comm.World) :
  fst (Comm.finish p now (snd (Comm.new p vol t_call w))) = Returns tt.
Proof.
  rewrite comm_new_runs. unfold Comm.finish, Comm.on.
  cbv beta iota delta [snd Comm.objs]. rewrite upd_same.
  erewrite finish_runs by reflexivity. reflexivity.
Qed.

Lemma shape_async (p : Comm.ref) (vol t_call t_ret : Q) (w : Comm.World) :
  (Comm.new p vol t_call ;;;
   wk <- Comm.torch_collective true ;;
   Comm.complete p true wk t_ret)%py w =
  (Returns (Some (Comm.mkHandler p (Some Comm.WorkToken))),
   snd (Comm.new p vol t_call w)).
Proof. unfold bind. now rewrite comm_new_runs. Qed.

Lemma shape_sync (p : Comm.ref) (vol t_call t_ret : Q) (w : Comm.World) :
  (Comm.new p vol t_call ;;;
   wk <- Comm.torch_collective false ;;
   Comm.complete p false wk t_ret)%py w =
  (Returns None, snd (Comm.finish p t_ret (snd (Comm.new p vol t_call w)))).
Proof.
  pose proof (comm_finish_after_new p vol t_call t_ret w) as Hf.
  unfold bind at 1. destruct (Comm.new p vol t_call w) as [[[] | e] w1] eqn:En.
  - unfold bind at 1, Comm.torch_collective, ret at 1, Comm.complete.
    unfold bind. simpl snd in *.
    destruct (Comm.finish p t_ret w1) as [[[] | e] w2]; [ reflexivity | ].
    discriminate Hf.
  - rewrite comm_new_runs in En. discriminate En.
Qed.

(** Every wrapper is [new] with some volume, the engine's call and the
    shared tail, as soon as the group size is not 0. *)
Lemma issue_shape (c : Comm.collective) (p : Comm.ref) (t_call : Q) :
  1 <= Comm.group_size (Comm.group_of c) ->
  exists vol, forall async_op t_ret w,
      Comm.issue c async_op p t_call t_ret w =
      (Comm.new p vol t_call ;;;
       wk <- Comm.torch_collective async_op ;;
       Comm.complete p async_op wk t_ret)%py w.
Proof.
  intros HP.
  assert (HP0 : Comm.get_world_size (Comm.group_of c) <> 0)
    by (unfold Comm.get_world_size; lia).
  destruct c; simpl in HP0; eexists; intros; simpl.
  - now apply all_reduce_unfold.
  - now apply reduce_scatter_unfold.
  - now apply all_gather_unfold.
  - reflexivity.
  - reflexivity.
Qed.

(** C5.  For each of the five wrappers and a group of size P >= 1: issued
    asynchronously, the wrapper returns a handle on the same profiler; one
    [wait()] on it at clock [t_done] returns and leaves exactly the world
    that the synchronous call of the same payload leaves when the engine
    returns at [t_done] (same count, volume, [running_ops], [start_time] and
    [total_time]); and as long as [wait()] is not called, [running_ops] is
    one more than before, hence above 0 in a session where it was not
    negative. *)
Theorem async_wait_matches_sync :
  forall (c : Comm.collective) (p : Comm.ref) (w : Comm.World)
         (t_call t_ret t_done : Q),
    1 <= Comm.group_size (Comm.group_of c) ->
    0 <= running_ops (Comm.objs w p) ->
    let issued := Comm.issue c true p t_call t_ret w in
    let sync := Comm.issue c false p t_call t_done w in
    exists h : Comm.CommHandler,
      fst issued = Returns (Some h) /\
      Comm.prof h = p /\
      fst sync = Returns None /\
      Comm.wait h t_done (snd issued) = (Returns tt, snd sync) /\
      running_ops (Comm.objs (snd issued) p) = running_ops (Comm.objs w p) + 1 /\
      0 < running_ops (Comm.objs (snd issued) p).
Proof.
  intros c p w t_call t_ret t_done HP Hops issued sync.
  destruct (issue_shape c p t_call HP) as [vol Hshape].
  subst issued sync. rewrite !Hshape, shape_async, shape_sync.
  exists (Comm.mkHandler p (Some Comm.WorkToken)).
  assert (Hrun : running_ops (Comm.objs (snd (Comm.new p vol t_call w)) p)
                 = running_ops (Comm.objs w p) + 1).
  { rewrite comm_new_runs. simpl. now rewrite upd_same. }
  cbn [fst snd]. repeat split; try exact Hrun.
  - unfold Comm.wait. cbn [Comm.work Comm.prof].
    pose proof (comm_finish_after_new p vol t_call t_done w) as Hf.
    destruct (Comm.finish p t_done _) as [r w2]. cbn [fst snd] in *. now subst r.
  - rewrite Hrun. lia.
Qed.

(** ** The busy window of a session *)

Import Session.

Lemma tracks_reset (o : Q) : tracks CommProfiler.reset_state 0 o.
Proof. split; reflexivity. Qed.

Lemma step_new_tracks (s : CommProfiler.t) (d : nat) (o vol now : Q) :
  tracks s d o ->
  exists s',
    step (New vol now) s = (Returns tt, s') /\
    tracks s' (S d) (match d with O => now | S _ => o end) /\
    running_ops s' = running_ops s + 1 /\
    total_time s' = total_time s /\
    start_time s' = (if running_ops s =? 0 then Some now else start_time s).
Proof.
  intros [Hops Hst]. simpl. rewrite new_runs. eexists. split; [ reflexivity | ].
  simpl. rewrite Hops, Hst.
  destruct d as [| d]; repeat split; cbn [running_ops]; try lia.
Qed.

Lemma step_finish_tracks (s : CommProfiler.t) (d : nat) (o now : Q) :
  tracks s (S d) o ->
  exists s',
    step (Finish now) s = (Returns tt, s') /\
    tracks s' d o /\
    running_ops s' = running_ops s - 1 /\
    total_time s' = (match d with
                     | O => (total_time s + (now - o))%Q
                     | S _ => total_time s
                     end) /\
    start_time s = Some o.
Proof.
  intros [Hops Hst]. simpl. rewrite (finish_runs now o s Hst).
  eexists. split; [ reflexivity | ].
  cbn [running_ops total_time start_time]. unfold tracks.
  cbn [running_ops total_time start_time]. rewrite Hops.
  destruct d as [| d].
  - repeat split; try assumption; reflexivity.
  - destruct (Z.eqb_spec (Z.of_nat (S (S d))) 1) as [E | E]; [ lia | ].
    repeat split; try assumption; lia.
Qed.

Lemma run_app (tr1 tr2 : list event) (s : CommProfiler.t) :
  run (tr1 ++ tr2) s =
  match run tr1 s with
  | (Returns _, s') => run tr2 s'
  | (Raises e, s') => (Raises e, s')
  end.
Proof.
  revert s. induction tr1 as [| e tr1 IH]; intros s; simpl.
  - reflexivity.
  - unfold bind. destruct (step e s) as [[[] | x] s1]; [ apply IH | reflexivity ].
Qed.

(** A window is open exactly while operations are outstanding. *)
Lemma open_from_depth (tr : list event) :
  forall (d : nat) (o : Q),
    open_from d o tr = None <-> depth_from d tr = O.
Proof.
  induction tr as [| [vol now | now] tr IH]; intros d o; simpl.
  - destruct d; split; congruence.
  - apply IH.
  - apply IH.
Qed.

(** The code against the windows of the spec, from any tracked state. *)
Lemma run_tracks (tr : list event) :
  forall (d : nat) (o : Q) (s : CommProfiler.t),
    tracks s d o ->
    balanced_from d tr = true ->
    exists s',
      run tr s = (Returns tt, s') /\
      running_ops s' = Z.of_nat (depth_from d tr) /\
      start_time s' = open_from d o tr /\
      (total_time s' == total_time s + busy_time (spans_from d o tr))%Q.
Proof.
  induction tr as [| e tr IH]; intros d o s Ht Hb.
  - exists s. destruct Ht as [Hops Hst].
    destruct d; simpl; (repeat split; try assumption; lra).
  - destruct e as [vol now | now].
    + destruct (step_new_tracks s d o vol now Ht) as (s1 & Hs1 & Ht1 & _ & Htm & _).
      simpl in Hb.
      destruct (IH _ _ _ Ht1 Hb) as (s' & Hrun & Hops' & Hst' & Htime).
      exists s'. cbn [run]. unfold bind. rewrite Hs1.
      repeat split; try assumption.
      cbn [spans_from]. rewrite <- Htm. exact Htime.
    + destruct d as [| d]; [ discriminate Hb | ].
      destruct (step_finish_tracks s d o now Ht) as (s1 & Hs1 & Ht1 & _ & Htm & _).
      simpl in Hb.
      destruct (IH _ _ _ Ht1 Hb) as (s' & Hrun & Hops' & Hst' & Htime).
      exists s'. cbn [run]. unfold bind. rewrite Hs1.
      repeat split; try assumption.
      rewrite Htm in Htime. cbn [spans_from].
      destruct d; cbn [busy_time fold_right fst snd] in *;
        fold (busy_time (spans_from 0 o tr)) in *; lra.
Qed.

Lemma balanced_from_app (tr1 tr2 : list event) :
  forall d : nat,
    balanced_from d (tr1 ++ tr2) =
    balanced_from d tr1 && balanced_from (depth_from d tr1) tr2.
Proof.
  induction tr1 as [| [vol now | now] tr1 IH]; intros d; simpl.
  - reflexivity.
  - apply IH.
  - destruct d; [ reflexivity | apply IH ].
Qed.

Lemma last_stamp_app (tr : list event) (e : event) :
  forall t : Q, last_stamp t (tr ++ [e]) = stamp e.
Proof.
  induction tr as [| x tr IH]; intros t; simpl; [ reflexivity | apply IH ].
Qed.

(** Under a clock that never runs backwards the closed windows are disjoint
    stretches of the time elapsed: their total length is at most the time
    from the start (or from the opening of the window already open) to the
    last event. *)
Lemma spans_bounded (tr : list event) :
  forall (d : nat) (o now : Q),
    (d <> O -> o <= now)%Q ->
    nondecreasing_from now tr = true ->
    (0 <= busy_time (spans_from d o tr)
     /\ busy_time (spans_from d o tr)
        <= last_stamp now tr - match d with O => now | S _ => o end)%Q.
Proof.
  induction tr as [| e tr IH]; intros d o now Ho Hmono.
  - simpl. destruct d; [ lra | ]. assert (o <= now)%Q by (apply Ho; discriminate). lra.
  - simpl in Hmono. apply andb_true_iff in Hmono. destruct Hmono as [Hle Hmono].
    apply Qle_bool_iff in Hle.
    destruct e as [vol t | t]; cbn [stamp] in *; cbn [spans_from last_stamp stamp].
    + destruct d as [| d].
      * destruct (IH 1%nat t t) as [H0 H1]; [ intros _; lra | assumption | ].
        split; [ exact H0 | lra ].
      * assert (o <= now)%Q by (apply Ho; discriminate).
        destruct (IH (S (S d)) o t) as [H0 H1]; [ intros _; lra | assumption | ].
        split; [ exact H0 | exact H1 ].
    + destruct d as [| [| d]].
      * destruct (IH O o t) as [H0 H1]; [ congruence | assumption | ].
        split; [ exact H0 | lra ].
      * assert (o <= now)%Q by (apply Ho; discriminate).
        destruct (IH O o t) as [H0 H1]; [ congruence | assumption | ].
        cbn [busy_time fold_right fst snd].
        fold (busy_time (spans_from 0 o tr)). split; lra.
      * assert (o <= now)%Q by (apply Ho; discriminate).
        destruct (IH (S d) o t) as [H0 H1]; [ intros _; lra | assumption | ].
        split; [ exact H0 | exact H1 ].
Qed.

(** C4.  Take any sequence of issues and completions from the reset state in
    which completions never outnumber issues, and look at its last event
    [e].  No call raises.  Before [e], [running_ops] is not negative and
    [start_time] is [None] exactly when it is 0.  An issue sets [start_time]
    (to its own clock reading) exactly when it takes [running_ops] from 0 to
    1 and leaves [total_time] alone; a completion clears [start_time] and adds
    the length of the window to [total_time] exactly when it brings
    [running_ops] back to 0, and changes neither otherwise.  So [total_time]
    is the summed length of the closed busy windows, each counted once,
    [start_time] is the opening of the window still open, and under a clock
    that never runs backwards [total_time] lies between 0 and the time
    elapsed. *)
Theorem busy_window_bookkeeping :
  forall (tr : list event) (e : event),
    balanced (tr ++ [e]) = true ->
    exists s s' : CommProfiler.t,
      run tr CommProfiler.reset_state = (Returns tt, s) /\
      step e s = (Returns tt, s') /\
      run (tr ++ [e]) CommProfiler.reset_state = (Returns tt, s') /\
      0 <= running_ops s /\
      (start_time s = None <-> running_ops s = 0) /\
      (start_time s' = None <-> running_ops s' = 0) /\
      match e with
      | New _ now =>
          running_ops s' = running_ops s + 1 /\
          total_time s' = total_time s /\
          start_time s' =
            (if running_ops s =? 0 then Some now else start_time s)
      | Finish now =>
          running_ops s' = running_ops s - 1 /\
          exists t0,
            start_time s = Some t0 /\
            start_time s' =
              (if running_ops s' =? 0 then None else start_time s) /\
            total_time s' =
              (if running_ops s' =? 0
               then (total_time s + (now - t0))%Q else total_time s)
      end /\
      (total_time s' == busy_time (spans (tr ++ [e])))%Q /\
      start_time s' = open_window (tr ++ [e]) /\
      (forall t_first : Q,
          nondecreasing_from t_first (tr ++ [e]) = true ->
          (0 <= total_time s' <= stamp e - t_first)%Q).
Proof.
  intros tr e Hb.
  unfold balanced in Hb. pose proof Hb as Hb'.
  rewrite balanced_from_app in Hb'. apply andb_true_iff in Hb'.
  destruct Hb' as [Hbtr Hbe].
  destruct (run_tracks tr 0 0%Q _ (tracks_reset 0%Q) Hbtr)
    as (s & Hrun & Hops & Hst & _).
  destruct (run_tracks (tr ++ [e]) 0 0%Q _ (tracks_reset 0%Q) Hb)
    as (s' & Hrun' & Hops' & Hst' & Htime').
  assert (Hstep : step e s = (Returns tt, s')).
  { rewrite run_app, Hrun in Hrun'. simpl in Hrun'. unfold bind in Hrun'.
    destruct (step e s) as [[[] | x] s1]; [ | discriminate Hrun' ].
    unfold ret in Hrun'. congruence. }
  assert (Hnone : start_time s = None <-> running_ops s = 0).
  { rewrite Hst, Hops, open_from_depth. lia. }
  assert (Hnone' : start_time s' = None <-> running_ops s' = 0).
  { rewrite Hst', Hops', open_from_depth. lia. }
  exists s, s'. repeat apply conj; try assumption; try lia.
  - apply Hnone.
  - apply Hnone.
  - apply Hnone'.
  - apply Hnone'.
  - set (o := match open_from 0 0%Q tr with Some x => x | None => 0%Q end).
    assert (Ht : tracks s (depth_from 0 tr) o).
    { split; [ exact Hops | ]. rewrite Hst. subst o.
      destruct (open_from_depth tr 0 0%Q) as [H1 H2].
      destruct (open_from 0 0%Q tr) as [q |]; destruct (depth_from 0 tr);
        try reflexivity.
      - specialize (H2 eq_refl). discriminate H2.
      - specialize (H1 eq_refl). discriminate H1. }
    remember (depth_from 0 tr) as d eqn:Ed.
    destruct e as [vol now | now].
    + destruct (step_new_tracks s d o vol now Ht) as (s1 & Hs1 & _ & H1 & H2 & H3).
      assert (s1 = s') by congruence. subst s1. repeat split; assumption.
    + simpl in Hbe. destruct d as [| d']; [ discriminate Hbe | ].
      destruct (step_finish_tracks s d' o now Ht) as (s1 & Hs1 & Ht1 & H1 & H2 & H3).
      assert (s1 = s') by congruence. subst s1.
      split; [ exact H1 | ]. exists o. split; [ exact H3 | ].
      destruct Ht1 as [Ho1 Hs1'].
      rewrite Ho1, Hs1', H2, H3.
      destruct d'; simpl; split; reflexivity.
  - rewrite Htime'. unfold spans. simpl. lra.
  - intros t_first Hmono.
    destruct (spans_bounded (tr ++ [e]) 0 0%Q t_first) as [H0 H1];
      [ congruence | assumption | ].
    rewrite last_stamp_app in H1.
    assert (E : (total_time s' == busy_time (spans_from 0 0 (tr ++ [e])))%Q)
      by (rewrite Htime'; simpl; lra).
    rewrite E. split; assumption.
Qed.

(** ** The data-parallel reducers of train.py *)

Import Torch Collective.

Lemma world_size_positive {T} (DATA : ParallelMode T) : 1 <= world_size DATA.
Proof. unfold world_size. lia. Qed.

Lemma xdiv_int_one (x : xreal) : xdiv_int x 1 = x.
Proof.
  destruct x; simpl; try reflexivity. f_equal. apply Rdiv_1_r.
Qed.

(** The sum of finite float tensors. *)
Lemma sum_from_finite (rs : list R) (r : R) :
  sum_from (Fin r) (map Fin rs) = Fin (fold_left Rplus rs r).
Proof.
  unfold sum_from. revert r. induction rs as [| x rs IH]; intros r; simpl.
  - reflexivity.
  - apply IH.
Qed.

Lemma fold_left_Rplus_repeat (x : R) (n : nat) :
  forall a : R, fold_left Rplus (repeat x n) a = (a + INR n * x)%R.
Proof.
  induction n as [| n IH]; intros a.
  - simpl. lra.
  - cbn [repeat fold_left]. rewrite IH, S_INR. lra.
Qed.

Lemma contributions_uniform {T} (x : T) (a b : nat) :
  contributions x (uniform x a b) = x :: repeat x (a + b).
Proof.
  unfold contributions, uniform. simpl.
  change (x :: repeat x b) with (repeat x (S b)).
  rewrite <- repeat_app. replace (a + S b)%nat with (S (a + b)) by lia.
  reflexivity.
Qed.

(** With every rank contributing the finite value [r], the SUM is
    P * r. *)
Lemma sum_all_uniform (r : R) (a b : nat) :
  sum_all (Fin r) (uniform (Fin r) a b)
  = Fin (IZR (world_size (uniform (Fin r) a b)) * r)%R.
Proof.
  unfold sum_all. rewrite contributions_uniform. cbv beta iota.
  rewrite <- (map_repeat r (a + b) Fin), sum_from_finite, fold_left_Rplus_repeat.
  f_equal. unfold world_size, uniform. simpl. rewrite !repeat_length.
  replace (a + 1 + b)%nat with (S (a + b)) by lia.
  rewrite <- INR_IZR_INZ, S_INR. lra.
Qed.

(** C6.  With a data-parallel group of size 1, [_data_parallel_sum] (on any
    kind of tensor) and [_data_parallel_mean] return their argument
    unchanged, whatever the all-reduce helper does.  For every group and
    helper, [_data_parallel_mean] is [_data_parallel_sum] divided by the
    group size P; and with the SUM all-reduce, when all P ranks hold the same
    finite value x, the sum is P * x and the mean is x. *)
Theorem reducers_identity_and_mean :
  (forall (T : Type) (helper : AllReduce T) (x : T) (DATA : ParallelMode T),
      world_size DATA = 1 ->
      Train._data_parallel_sum helper DATA x = (Returns x, x)) /\
  (forall (helper : AllReduce xreal) (x : xreal) (DATA : ParallelMode xreal),
      world_size DATA = 1 ->
      Train._data_parallel_mean helper DATA x = (Returns x, x)) /\
  (forall (helper : AllReduce xreal) (x : xreal) (DATA : ParallelMode xreal),
      fst (Train._data_parallel_mean helper DATA x)
      = match fst (Train._data_parallel_sum helper DATA x) with
        | Returns total => Returns (xdiv_int total (world_size DATA))
        | Raises e => Raises e
        end) /\
  (forall (r : R) (a b : nat),
      let DATA := uniform (Fin r) a b in
      fst (Train._data_parallel_sum all_reduce DATA (Fin r))
      = Returns (Fin (IZR (world_size DATA) * r)%R) /\
      fst (Train._data_parallel_mean all_reduce DATA (Fin r))
      = Returns (Fin r)).
Proof.
  repeat apply conj.
  - intros T helper x DATA HP. unfold Train._data_parallel_sum. now rewrite HP.
  - intros helper x DATA HP. unfold Train._data_parallel_mean. now rewrite HP.
  - intros helper x DATA.
    unfold Train._data_parallel_mean, Train._data_parallel_sum.
    destruct (Z.ltb_spec 1 (world_size DATA)) as [H | H].
    + unfold bind. destruct (helper DATA x) as [[total | e] x']; reflexivity.
    + assert (E : world_size DATA = 1)
        by (pose proof (world_size_positive DATA); lia).
      rewrite E. cbn. now rewrite xdiv_int_one.
  - intros r a b DATA.
    unfold Train._data_parallel_mean, Train._data_parallel_sum.
    pose proof (world_size_positive DATA) as Hpos.
    destruct (Z.ltb_spec 1 (world_size DATA)) as [H | H].
    + subst DATA. unfold bind, all_reduce, ret. cbn [fst].
      rewrite sum_all_uniform. split; [ reflexivity | ].
      set (P := world_size _) in *. simpl.
      destruct (Z.eqb_spec P 0) as [E | E]; [ lia | ].
      do 2 f_equal. field. apply not_0_IZR. exact E.
    + assert (E : world_size DATA = 1) by lia.
      rewrite E. split; [ cbn; do 2 f_equal; lra | reflexivity ].
Qed.

(** ** Accuracy *)

Lemma wrap32_in_range (z : Z) : in_int32 z -> wrap32 z = z.
Proof.
  unfold in_int32, wrap32. intros H. rewrite Z.mod_small; lia.
Qed.

Lemma wrap32_add_l (a b : Z) : wrap32 (wrap32 a + b) = wrap32 (a + b).
Proof.
  unfold wrap32. f_equal.
  replace ((a + 2 ^ 31) mod 2 ^ 32 - 2 ^ 31 + b + 2 ^ 31)
    with ((a + 2 ^ 31) mod 2 ^ 32 + b) by lia.
  rewrite Zplus_mod_idemp_l. f_equal. lia.
Qed.

(** The SUM of int tensors is the wrapped sum of their values. *)
Lemma sum_from_int32 (rest : list int32) :
  forall first : int32,
    signed (sum_from first rest)
    = match rest with
      | [] => signed first
      | _ :: _ => wrap32 (signed first + Model.sumZ (map signed rest))
      end.
Proof.
  unfold sum_from. induction rest as [| x rest IH]; intros first.
  - reflexivity.
  - cbn [fold_left]. rewrite IH. unfold tsum, Summable_int32, iadd. cbn [signed].
    destruct rest as [| y rest].
    + simpl. f_equal. lia.
    + cbn [map Model.sumZ fold_right]. rewrite wrap32_add_l. f_equal. lia.
Qed.

(** A stack is reduced element by element. *)
Lemma sum_from_stack {A B} `{Summable A} `{Summable B} (rest : list (A * B)) :
  forall first : A * B,
    sum_from first rest
    = (sum_from (fst first) (map fst rest), sum_from (snd first) (map snd rest)).
Proof.
  unfold sum_from. induction rest as [| x rest IH]; intros first; simpl.
  - now destruct first.
  - rewrite IH. reflexivity.
Qed.

Lemma contributions_map {A B} (f : A -> B) (x : A) (DATA : ParallelMode A) :
  contributions (f x) (pm_map f DATA) = map f (contributions x DATA).
Proof.
  unfold contributions, pm_map. simpl. now rewrite map_app.
Qed.

Lemma sum_all_stack {A B} `{Summable A} `{Summable B}
  (x : A * B) (DATA : ParallelMode (A * B)) :
  sum_all x DATA
  = (sum_all (fst x) (pm_map fst DATA), sum_all (snd x) (pm_map snd DATA)).
Proof.
  unfold sum_all. rewrite !contributions_map.
  destruct (contributions x DATA) as [| first rest] eqn:E.
  - now destruct x.
  - simpl. apply sum_from_stack.
Qed.

(** With every contribution and the total in the int32 range, the SUM is
    the exact total. *)
Lemma sum_all_int32_exact (x : int32) (DATA : ParallelMode int32) :
  Forall (fun c => in_int32 (signed c)) (contributions x DATA) ->
  in_int32 (Model.sumZ (map signed (contributions x DATA))) ->
  signed (sum_all x DATA) = Model.sumZ (map signed (contributions x DATA)).
Proof.
  intros Hall Htot. unfold sum_all.
  destruct (contributions x DATA) as [| first rest] eqn:E.
  - unfold contributions in E. symmetry in E. now apply app_cons_not_nil in E.
  - rewrite sum_from_int32. cbn [map Model.sumZ fold_right] in *.
    destruct rest as [| y rest].
    + simpl. lia.
    + now apply wrap32_in_range.
Qed.

(** The table of counting functions has four keys; any other mode makes
    [__init__] raise. *)
Lemma accuracy_init_keys {Logits Targets : Type}
  (calc_acc calc_acc_2d calc_acc_3d : Logits -> Targets -> Z)
  (mode : option String.string) :
  is_raise (Accuracy.init Logits Targets calc_acc calc_acc_2d calc_acc_3d mode)
  = negb (match mode with
          | None => true
          | Some k => String.eqb k "1d" || String.eqb k "2d" || String.eqb k "3d"
          end).
Proof.
  unfold Accuracy.init, Accuracy._parallel_accuracy.
  destruct mode as [k |]; [ | reflexivity ].
  destruct (String.eqb k "1d"), (String.eqb k "2d"), (String.eqb k "3d");
    reflexivity.
Qed.

Lemma accuracy_value_runs {Logits Targets : Type}
  (self : Accuracy.t Logits Targets) (DATA : ParallelMode (int32 * int32)) :
  Accuracy.value all_reduce DATA self =
  (Returns
     (true_divide
        (signed (sum_all (Accuracy.total_correct self) (pm_map fst DATA)))
        (signed (sum_all (Accuracy.total_samples self) (pm_map snd DATA)))),
   self).
Proof.
  unfold Accuracy.value, bind, get, ret, temporary, all_reduce. cbn [fst].
  rewrite sum_all_stack. reflexivity.
Qed.

(** C7.  [value()] reduces the stack [total_correct, total_samples] with SUM
    over the data-parallel group, element by element, and returns the first
    reduced element divided by the second, leaving the accumulator as it
    was; when the contributions and the totals fit the int tensors, that is
    (sum of total_correct) / (sum of total_samples) over the ranks.  In a
    group of two ranks where, after [reset()], rank 0 has forwarded a batch
    with 3 correct of 4 and rank 1 a batch with 1 correct of 4, [value()]
    returns 0.5 on both ranks. *)
Theorem accuracy_value_global :
  forall (Logits Targets : Type) (size0 : Targets -> Z),
    (forall (self : Accuracy.t Logits Targets) (DATA : ParallelMode (int32 * int32)),
        Accuracy.value all_reduce DATA self =
        (Returns
           (true_divide
              (signed (fst (sum_all (Accuracy.share self) DATA)))
              (signed (snd (sum_all (Accuracy.share self) DATA)))),
         self) /\
        sum_all (Accuracy.share self) DATA =
        (sum_all (Accuracy.total_correct self) (pm_map fst DATA),
         sum_all (Accuracy.total_samples self) (pm_map snd DATA))) /\
    (forall (self : Accuracy.t Logits Targets) (DATA : ParallelMode (int32 * int32)),
        let everyone := contributions (Accuracy.share self) DATA in
        let correct := Model.sumZ (map (fun c => signed (fst c)) everyone) in
        let samples := Model.sumZ (map (fun c => signed (snd c)) everyone) in
        Forall (fun c => in_int32 (signed (fst c)) /\ in_int32 (signed (snd c)))
               everyone ->
        in_int32 correct -> in_int32 samples ->
        fst (Accuracy.value all_reduce DATA self)
        = Returns (true_divide correct samples)) /\
    (forall (r0 r1 : Accuracy.t Logits Targets) (l0 l1 : Logits) (t0 t1 : Targets)
            (loss0 loss1 : xreal),
        Accuracy.acc r0 l0 t0 = 3 -> size0 t0 = 4 ->
        Accuracy.acc r1 l1 t1 = 1 -> size0 t1 = 4 ->
        let s0 := snd (Accuracy.forward size0 l0 t0 loss0 (snd (Accuracy.reset r0))) in
        let s1 := snd (Accuracy.forward size0 l1 t1 loss1 (snd (Accuracy.reset r1))) in
        fst (Accuracy.value all_reduce (mkMode [] [Accuracy.share s1]) s0)
        = Returns (Fin (1 / 2)%R) /\
        fst (Accuracy.value all_reduce (mkMode [Accuracy.share s0] []) s1)
        = Returns (Fin (1 / 2)%R)).
Proof.
  intros Logits Targets size0. repeat apply conj.
  - intros self DATA. split.
    + reflexivity.
    + apply sum_all_stack.
  - intros self DATA everyone correct samples Hall Hc Hs.
    rewrite accuracy_value_runs. cbn [fst]. f_equal.
    pose proof (contributions_map fst (Accuracy.share self) DATA) as Efst.
    pose proof (contributions_map snd (Accuracy.share self) DATA) as Esnd.
    cbn [Accuracy.share stack fst snd] in Efst, Esnd.
    subst everyone correct samples. unfold Accuracy.share, stack in *.
    f_equal.
    + rewrite sum_all_int32_exact; rewrite Efst.
      * now rewrite map_map.
      * apply Forall_map. eapply Forall_impl; [ | exact Hall ].
        intros c [H _]. exact H.
      * now rewrite map_map.
    + rewrite sum_all_int32_exact; rewrite Esnd.
      * now rewrite map_map.
      * apply Forall_map. eapply Forall_impl; [ | exact Hall ].
        intros c [_ H]. exact H.
      * now rewrite map_map.
  - intros r0 r1 l0 l1 t0 t1 loss0 loss1 Hc0 Hn0 Hc1 Hn1 s0 s1.
    subst s0 s1. unfold Accuracy.forward, Accuracy.reset, modify, bind, get, put.
    cbn [fst snd Accuracy.acc Accuracy.total_correct Accuracy.total_samples].
    rewrite Hc0, Hn0, Hc1, Hn1.
    split; rewrite accuracy_value_runs; cbn [fst]; f_equal;
      unfold true_divide; vm_compute (signed _); simpl; f_equal; lra.
Qed.

(** ** Perplexity *)

Lemma fold_left_Rplus_sumR (l : list R) :
  forall a : R, fold_left Rplus l a = (a + Model.sumR l)%R.
Proof.
  induction l as [| x l IH]; intros a; simpl.
  - lra.
  - rewrite IH. lra.
Qed.

(** The SUM of finite losses is their sum. *)
Lemma sum_all_finite (ls us : list R) (r : R) :
  sum_all (Fin r) (mkMode (map Fin ls) (map Fin us))
  = Fin (Model.sumR (ls ++ r :: us)).
Proof.
  unfold sum_all, contributions. cbn [lower upper].
  change (Fin r :: map Fin us) with (map Fin (r :: us)).
  rewrite <- map_app.
  destruct (ls ++ r :: us) as [| first rest] eqn:E.
  - symmetry in E. now apply app_cons_not_nil in E.
  - cbn [map]. rewrite sum_from_finite, fold_left_Rplus_sumR. reflexivity.
Qed.

Lemma over_zero_zero : over_zero 0 = NaN.
Proof.
  unfold over_zero. destruct (total_order_T 0 0) as [[H | H] | H];
    [ lra | reflexivity | lra ].
Qed.

(** Ranks that never forwarded contribute zeros, and so is their sum. *)
Lemma sum_from_zeros (rest : list xreal) :
  Forall (eq zeros_float) rest -> sum_from zeros_float rest = zeros_float.
Proof.
  unfold sum_from, zeros_float. induction rest as [| x rest IH]; intros H.
  - reflexivity.
  - inversion H as [| y l Hx Hrest]; subst. cbn [fold_left].
    unfold tsum at 2, Summable_xreal, xadd. rewrite Rplus_0_l. now apply IH.
Qed.

Lemma sum_all_zeros (DATA : ParallelMode xreal) :
  Forall (eq zeros_float) (lower DATA ++ upper DATA) ->
  sum_all zeros_float DATA = zeros_float.
Proof.
  intros H. apply Forall_app in H. destruct H as [Hl Hu].
  unfold sum_all, contributions.
  destruct (lower DATA) as [| first rest].
  - simpl. now apply sum_from_zeros.
  - inversion Hl as [| y l Hx Hrest]; subst. cbn [app].
    apply sum_from_zeros. apply Forall_app. split; [ assumption | ].
    constructor; [ reflexivity | assumption ].
Qed.

Lemma perplexity_value_runs (self : Perplexity.t) (DATA : ParallelMode xreal) :
  Perplexity.value all_reduce DATA self =
  (Returns
     (Torch.exp
        (xdiv_int (sum_all (Perplexity.total_loss self) DATA)
                  (Perplexity.cnt self * world_size DATA))),
   self).
Proof.
  unfold Perplexity.value, bind, borrow, all_reduce, get, ret.
  now destruct self.
Qed.

(** C8.  [forward] adds 1 to [cnt] and the batch loss to [total_loss] (and
    returns the exponential of the loss); [value()] SUM-reduces [total_loss]
    over the data-parallel group of size P, divides by [cnt * P] and
    exponentiates, which for finite losses and [cnt <> 0] is
    exp(sum of the ranks' total_loss / (cnt * P)).  After [reset()] and two
    [forward] calls with losses 1.0 and 2.0 in a single-process group,
    [value()] returns exp(1.5). *)
Theorem perplexity_value_formula :
  (forall (Logits Targets : Type) (logits : Logits) (targets : Targets)
          (loss : xreal) (self : Perplexity.t),
      Perplexity.forward logits targets loss self =
      (Returns (Torch.exp loss),
       {| Perplexity.cnt := Perplexity.cnt self + 1;
          Perplexity.total_loss := xadd (Perplexity.total_loss self) loss |})) /\
  (forall (self : Perplexity.t) (DATA : ParallelMode xreal),
      Perplexity.value all_reduce DATA self =
      (Returns
         (Torch.exp
            (xdiv_int (sum_all (Perplexity.total_loss self) DATA)
                      (Perplexity.cnt self * world_size DATA))),
       self)) /\
  (forall (ls us : list R) (r : R) (n : Z),
      n <> 0 ->
      let DATA := mkMode (map Fin ls) (map Fin us) in
      fst (Perplexity.value all_reduce DATA
             {| Perplexity.cnt := n; Perplexity.total_loss := Fin r |})
      = Returns
          (Fin (Rtrigo_def.exp
                  (Model.sumR (ls ++ r :: us) / IZR (n * world_size DATA))))) /\
  (forall (Logits Targets : Type) (l1 l2 : Logits) (t1 t2 : Targets)
          (self : Perplexity.t),
      let s0 := snd (Perplexity.reset self) in
      let s1 := snd (Perplexity.forward l1 t1 (Fin 1) s0) in
      let s2 := snd (Perplexity.forward l2 t2 (Fin 2) s1) in
      fst (Perplexity.value all_reduce alone s2)
      = Returns (Fin (Rtrigo_def.exp (3 / 2)))).
Proof.
  repeat apply conj.
  - reflexivity.
  - apply perplexity_value_runs.
  - intros ls us r n Hn DATA. subst DATA.
    rewrite perplexity_value_runs.
    cbn [fst Perplexity.cnt Perplexity.total_loss].
    rewrite sum_all_finite. unfold xdiv_int.
    set (P := world_size _).
    assert (HP : 1 <= P) by apply world_size_positive.
    destruct (Z.eqb_spec (n * P) 0) as [E | E]; [ nia | reflexivity ].
  - intros Logits Targets l1 l2 t1 t2 self s0 s1 s2. subst s0 s1 s2.
    rewrite perplexity_value_runs. cbn. do 3 f_equal. lra.
Qed.



(** ** What [value()] writes *)

(** A computation that leaves the state alone gives the same outcome at
    every call. *)
Lemma calls_of_reader {S A} (m : M S A) (s : S) :
  snd (m s) = s ->
  forall n : nat,
    snd (calls n m s) = s /\
    forall v, fst (m s) = Returns v ->
              fst (calls n m s) = Returns (repeat v n).
Proof.
  intros Hm.
  induction n as [| n [IHs IHv]];
    [ split; [ reflexivity | intros v _; reflexivity ] | ].
  cbn [calls]. unfold bind.
  destruct (m s) as [[v | e] s'] eqn:E; cbn [fst snd] in *; subst s'.
  - destruct (calls n m s) as [[vs | e] s'']; cbn [fst snd] in *; subst s''.
    + split; [ reflexivity | ]. intros v' Hv. injection Hv as <-.
      specialize (IHv v eq_refl). injection IHv as ->. reflexivity.
    + split; [ reflexivity | ]. intros v' Hv.
      specialize (IHv v eq_refl). discriminate IHv.
  - split; [ reflexivity | intros v Hv; discriminate Hv ].
Qed.

(** [Accuracy.value] hands the helper a stacked copy: whatever the helper
    leaves in it is dropped. *)
Lemma accuracy_value_reads {Logits Targets : Type}
  (helper : AllReduce (int32 * int32)) (self : Accuracy.t Logits Targets)
  (DATA : ParallelMode (int32 * int32)) :
  snd (Accuracy.value helper DATA self) = self.
Proof.
  unfold Accuracy.value, bind, get, temporary, ret.
  cbn [fst]. destruct (fst (helper DATA _)); reflexivity.
Qed.

(** [Perplexity.value] hands the helper [self.total_loss] itself: what the
    helper leaves in that tensor is the accumulator's [total_loss]
    afterwards, also when the helper raises. *)
Lemma perplexity_value_state (helper : AllReduce xreal) (self : Perplexity.t)
  (DATA : ParallelMode xreal) :
  snd (Perplexity.value helper DATA self)
  = {| Perplexity.cnt := Perplexity.cnt self;
       Perplexity.total_loss := snd (helper DATA (Perplexity.total_loss self)) |}.
Proof.
  unfold Perplexity.value, bind, borrow, get, ret.
  destruct (helper DATA (Perplexity.total_loss self)) as [[v | e] x];
    reflexivity.
Qed.

Lemma perplexity_value_in_place (self : Perplexity.t) (DATA : ParallelMode xreal) :
  Perplexity.value InPlace.all_reduce DATA self =
  (Returns
     (Torch.exp
        (xdiv_int (sum_all (Perplexity.total_loss self) DATA)
                  (Perplexity.cnt self * world_size DATA))),
   {| Perplexity.cnt := Perplexity.cnt self;
      Perplexity.total_loss := sum_all (Perplexity.total_loss self) DATA |}).
Proof. reflexivity. Qed.

Lemma Fin_inj (x y : R) : Fin x = Fin y -> x = y.
Proof. intros H. now injection H. Qed.

Lemma exp_Fin_differ (x y : R) :
  x <> y -> Torch.exp (Fin x) <> Torch.exp (Fin y).
Proof.
  intros Hxy H. apply Hxy, Rpower.exp_inv, Fin_inj. exact H.
Qed.



(** * The theorems at concrete inputs *)

(** C2 at a group of 4: a synchronous all-reduce of 1024 elements of 4 bytes
    in a fresh window records 2 * 3/4 * 4096 = 6144 bytes, and an all-gather
    of four such chunks 3/4 * 16384 = 12288 bytes. *)
Lemma recorded_volume_witness :
  1 <= Comm.group_size (Comm.mkGroup 4) /\
  Model.records 0%nat Comm.fresh
    (Comm.dist_all_reduce (Comm.mkTensor 4 1024) Comm.SUM (Comm.mkGroup 4)
       false 0 1 (snd (Comm.start 0%nat Comm.fresh)))
    6144 /\
  Model.records 0%nat Comm.fresh
    (Comm.dist_all_gather (repeat (Comm.mkTensor 4 1024) 4) (Comm.mkTensor 4 1024)
       (Comm.mkGroup 4) false 0 1 (snd (Comm.start 0%nat Comm.fresh)))
    12288.
Proof.
  assert (H : 1 <= Comm.group_size (Comm.mkGroup 4)) by (simpl; lia).
  destruct (recorded_volume_is_model (Comm.mkGroup 4) 0%nat Comm.fresh Comm.SUM
              false 0 1 H) as (Har & _ & Hag & _).
  split; [ exact H | split ].
  - eapply records_equiv; [ | exact (Har (Comm.mkTensor 4 1024)) ].
    vm_compute. reflexivity.
  - eapply records_equiv;
      [ | exact (Hag (repeat (Comm.mkTensor 4 1024) 4) (Comm.mkTensor 4 1024)) ].
    vm_compute. reflexivity.
Defined.

(** C3 (amended) at a group of 1: the all-reduce records nothing, the
    broadcast its 4096 bytes. *)
Lemma single_process_volumes_witness :
  Comm.group_size (Comm.mkGroup 1) = 1 /\
  Model.records 0%nat Comm.fresh
    (Comm.dist_all_reduce (Comm.mkTensor 4 1024) Comm.SUM (Comm.mkGroup 1)
       false 0 1 (snd (Comm.start 0%nat Comm.fresh)))
    0 /\
  Model.records 0%nat Comm.fresh
    (Comm.dist_broadcast (Comm.mkTensor 4 1024) 0 (Comm.mkGroup 1)
       false 0 1 (snd (Comm.start 0%nat Comm.fresh)))
    (inject_Z 4096).
Proof.
  destruct (single_process_volumes (Comm.mkGroup 1) 0%nat Comm.fresh Comm.SUM
              false 0 1 eq_refl) as (Har & _ & _ & Hbc & _).
  split; [ reflexivity | split ].
  - exact (Har (Comm.mkTensor 4 1024)).
  - exact (Hbc (Comm.mkTensor 4 1024) 0).
Defined.

(** C5 at a fresh session: an asynchronous all-reduce in a group of 4. *)
Lemma async_wait_witness :
  1 <= Comm.group_size (Comm.group_of
         (Comm.AllReduce (Comm.mkTensor 4 1024) Comm.SUM (Comm.mkGroup 4))) /\
  0 <= running_ops (Comm.objs Comm.fresh 0%nat) /\
  exists h : Comm.CommHandler,
    fst (Comm.issue (Comm.AllReduce (Comm.mkTensor 4 1024) Comm.SUM (Comm.mkGroup 4))
           true 0%nat 1 2 Comm.fresh) = Returns (Some h) /\
    Comm.wait h 5
      (snd (Comm.issue (Comm.AllReduce (Comm.mkTensor 4 1024) Comm.SUM (Comm.mkGroup 4))
              true 0%nat 1 2 Comm.fresh))
    = (Returns tt,
       snd (Comm.issue (Comm.AllReduce (Comm.mkTensor 4 1024) Comm.SUM (Comm.mkGroup 4))
              false 0%nat 1 5 Comm.fresh)) /\
    0 < running_ops
          (Comm.objs
             (snd (Comm.issue
                     (Comm.AllReduce (Comm.mkTensor 4 1024) Comm.SUM (Comm.mkGroup 4))
                     true 0%nat 1 2 Comm.fresh)) 0%nat).
Proof.
  assert (H1 : 1 <= Comm.group_size (Comm.group_of
                 (Comm.AllReduce (Comm.mkTensor 4 1024) Comm.SUM (Comm.mkGroup 4))))
    by (simpl; lia).
  assert (H2 : 0 <= running_ops (Comm.objs Comm.fresh 0%nat)) by (simpl; lia).
  destruct (async_wait_matches_sync
              (Comm.AllReduce (Comm.mkTensor 4 1024) Comm.SUM (Comm.mkGroup 4))
              0%nat Comm.fresh 1 2 5 H1 H2)
    as (h & Hh & _ & _ & Hwait & _ & Hpos).
  split; [ exact H1 | split; [ exact H2 | ] ].
  exists h. split; [ exact Hh | split; [ exact Hwait | exact Hpos ] ].
Defined.

(** C4 on two nested collectives followed by a third one: the windows are
    (1, 7) and (8, 9), so 7 seconds are counted, not the 6 + 1 + 1 of the
    three calls. *)
Lemma busy_window_witness :
  balanced ([New 10 1; New 5 2; Finish 3; Finish 7; New 1 8] ++ [Finish 9]) = true /\
  nondecreasing_from 0
    ([New 10 1; New 5 2; Finish 3; Finish 7; New 1 8] ++ [Finish 9]) = true /\
  exists s' : CommProfiler.t,
    run ([New 10 1; New 5 2; Finish 3; Finish 7; New 1 8] ++ [Finish 9])
        CommProfiler.reset_state = (Returns tt, s') /\
    (total_time s' == 7)%Q /\
    start_time s' = None /\
    (0 <= total_time s' <= 9 - 0)%Q.
Proof.
  destruct (busy_window_bookkeeping
              [New 10 1; New 5 2; Finish 3; Finish 7; New 1 8] (Finish 9) eq_refl)
    as (s & s' & _ & _ & Hrun & _ & _ & _ & _ & Htime & Hopen & Hbound).
  split; [ reflexivity | split; [ reflexivity | ] ].
  exists s'. split; [ exact Hrun | split; [ | split ] ].
  - rewrite Htime. reflexivity.
  - exact Hopen.
  - exact (Hbound 0%Q eq_refl).
Defined.

(** C6 at a single-process group and at a group of three ranks that all
    hold 2. *)
Lemma reducers_witness :
  world_size (@alone xreal) = 1 /\
  Train._data_parallel_sum all_reduce alone (Fin 5) = (Returns (Fin 5), Fin 5) /\
  Train._data_parallel_mean all_reduce alone (Fin 5) = (Returns (Fin 5), Fin 5) /\
  fst (Train._data_parallel_mean all_reduce (uniform (Fin 2) 1 1) (Fin 2))
  = Returns (Fin 2).
Proof.
  destruct reducers_identity_and_mean as (Hsum & Hmean & _ & Huni).
  split; [ reflexivity | split; [ | split ] ].
  - exact (Hsum xreal all_reduce (Fin 5) alone eq_refl).
  - exact (Hmean all_reduce (Fin 5) alone eq_refl).
  - exact (proj2 (Huni 2%R 1%nat 1%nat)).
Defined.

(** C7 on two ranks, with predictions already decoded to labels and counted
    against the targets: 3 of 4 right on rank 0, 1 of 4 on rank 1. *)
Local Abbreviation hits :=
  (fun l t : list Z =>
     Z.of_nat (length (filter (fun p => fst p =? snd p) (combine l t)))).

Local Abbreviation batch_size := (fun t : list Z => Z.of_nat (length t)).

Lemma accuracy_value_witness :
  (hits [1; 2; 3; 0] [1; 2; 3; 4] = 3 /\ batch_size [1; 2; 3; 4] = 4 /\
   hits [9; 9; 9; 4] [1; 2; 3; 4] = 1) /\
  fst (Accuracy.value all_reduce (mkMode [] [(I32 1, I32 4)])
         (Accuracy.mk (list Z) (list Z) hits (I32 3) (I32 4)))
  = Returns (Fin (1 / 2)%R) /\
  fst (Accuracy.value all_reduce (mkMode [(I32 3, I32 4)] [])
         (Accuracy.mk (list Z) (list Z) hits (I32 1) (I32 4)))
  = Returns (Fin (1 / 2)%R).
Proof.
  split; [ repeat split | ].
  destruct (accuracy_value_global (list Z) (list Z) batch_size) as (_ & _ & Hex).
  exact (Hex (Accuracy.mk (list Z) (list Z) hits zeros_int zeros_int)
             (Accuracy.mk (list Z) (list Z) hits zeros_int zeros_int)
             [1; 2; 3; 0] [9; 9; 9; 4] [1; 2; 3; 4] [1; 2; 3; 4]
             (Fin 0) (Fin 0) eq_refl eq_refl eq_refl eq_refl).
Defined.

(** C8 on two ranks with [cnt = 2] and total losses 1 and 3. *)
Lemma perplexity_value_witness :
  2 <> 0 /\
  fst (Perplexity.value all_reduce (mkMode (map Fin []) (map Fin [3%R]))
         {| Perplexity.cnt := 2; Perplexity.total_loss := Fin 1 |})
  = Returns
      (Fin (Rtrigo_def.exp
              (Model.sumR ([] ++ 1%R :: [3%R])
               / IZR (2 * world_size (mkMode (map Fin []) (map Fin [3%R])))))).
Proof.
  assert (H : 2 <> 0) by lia.
  destruct perplexity_value_formula as (_ & _ & Hfin & _).
  split; [ exact H | exact (Hfin [] [3%R] 1%R 2 H) ].
Defined.



(** * Further properties of the profiler *)

Lemma run_guarded (tr : list event) :
  forall s : CommProfiler.t,
    Tally.guarded s ->
    exists s',
      run tr s = (Returns tt, s') /\
      Tally.guarded s' /\
      total_cnt s' = total_cnt s + Tally.issued tr /\
      (total_vol s' == total_vol s + Tally.volume tr)%Q /\
      running_ops s' = running_ops s + Tally.issued tr - Tally.completed tr.
Proof.
  induction tr as [| [vol now | now] tr IH]; intros s Hg.
  - exists s. simpl. repeat split; try assumption; try lia. lra.
  - cbn [run step]. unfold bind. rewrite new_runs.
    match goal with |- context [run tr ?s1] =>
      destruct (IH s1) as (s' & Hrun & Hg' & Hcnt & Hvol & Hops) end.
    { intros H. discriminate H. }
    exists s'. rewrite Hrun. cbn [total_cnt total_vol running_ops] in *.
    repeat split; try assumption.
    + rewrite Hcnt. cbn [Tally.issued]. lia.
    + rewrite Hvol. cbn [Tally.volume]. lra.
    + rewrite Hops. cbn [Tally.issued Tally.completed]. lia.
  - cbn [run step]. unfold bind.
    destruct (Z.eq_dec (running_ops s) 1) as [E | E].
    + destruct (start_time s) as [t0 |] eqn:Hst.
      * rewrite (finish_closes now t0 s E Hst).
        match goal with |- context [run tr ?s1] =>
          destruct (IH s1) as (s' & Hrun & Hg' & Hcnt & Hvol & Hops) end.
        { intros _. cbn [running_ops]. lia. }
        exists s'. rewrite Hrun. cbn [total_cnt total_vol running_ops] in *.
        repeat split; try assumption.
        rewrite Hops. cbn [Tally.issued Tally.completed]. lia.
      * specialize (Hg Hst). lia.
    + rewrite (finish_inner now s E).
      match goal with |- context [run tr ?s1] =>
        destruct (IH s1) as (s' & Hrun & Hg' & Hcnt & Hvol & Hops) end.
      { intros H. cbn [start_time running_ops] in *. specialize (Hg H). lia. }
      exists s'. rewrite Hrun. cbn [total_cnt total_vol running_ops] in *.
      repeat split; try assumption.
      rewrite Hops. cbn [Tally.issued Tally.completed]. lia.
Qed.

(** X1.  After [reset], no sequence of [new] and [finish] calls raises, not
    even one in which completions outnumber issues: the [TypeError] of
    [time.time() - None] cannot be reached.  Whatever the completions,
    [total_cnt] is the number of issues, [total_vol] the sum of their
    volumes, and [running_ops] the issues minus the completions. *)
Theorem session_counters :
  forall tr : list event,
  exists s' : CommProfiler.t,
    run tr CommProfiler.reset_state = (Returns tt, s') /\
    total_cnt s' = Tally.issued tr /\
    (total_vol s' == Tally.volume tr)%Q /\
    running_ops s' = Tally.issued tr - Tally.completed tr.
Proof.
  intros tr.
  destruct (run_guarded tr CommProfiler.reset_state) as (s' & Hrun & _ & Hc & Hv & Ho).
  { intros _. simpl. lia. }
  exists s'. simpl in *. repeat split; try assumption. rewrite Hv. lra.
Qed.

(** X2.  Once [running_ops] is not 0 between calls (a handle that was never
    awaited, or a [finish] too many), synchronous collectives no longer
    count any time: after any number of them [total_time] and [running_ops]
    are as before, while [total_cnt] has grown by their number. *)
Theorem stuck_session_counts_no_time :
  forall (cs : list (Q * Q * Q)) (s : CommProfiler.t),
    running_ops s <> 0 ->
    exists s' : CommProfiler.t,
      run (Tally.sync_calls cs) s = (Returns tt, s') /\
      total_time s' = total_time s /\
      running_ops s' = running_ops s /\
      total_cnt s' = total_cnt s + Z.of_nat (length cs).
Proof.
  induction cs as [| [[vol t_call] t_ret] cs IH]; intros s Hops.
  - exists s. simpl. repeat split; lia.
  - cbn [Tally.sync_calls flat_map fst snd app run step]. unfold bind at 1.
    rewrite new_runs. unfold bind at 1.
    match goal with |- context [CommProfiler.finish _ ?s1] =>
      rewrite (finish_inner t_ret s1) by (cbn [running_ops]; lia) end.
    cbn [running_ops total_time total_vol total_cnt start_time].
    match goal with |- context [run _ ?s2] =>
      destruct (IH s2) as (s' & Hrun & Ht & Ho & Hc) end.
    { cbn [running_ops]. lia. }
    exists s'. fold (Tally.sync_calls cs). rewrite Hrun.
    cbn [running_ops total_time total_cnt] in *.
    repeat split; try assumption; try lia.
    rewrite Hc. cbn [length]. lia.
Qed.

Lemma stuck_session_witness :
  running_ops (snd (run [Finish 1] CommProfiler.reset_state)) <> 0 /\
  exists s' : CommProfiler.t,
    run (Tally.sync_calls [(4096%Q, 2%Q, 3%Q); (4096%Q, 4%Q, 6%Q)])
        (snd (run [Finish 1] CommProfiler.reset_state)) = (Returns tt, s') /\
    total_time s' = 0%Q /\
    total_cnt s' = 2.
Proof.
  assert (H : running_ops (snd (run [Finish 1] CommProfiler.reset_state)) <> 0)
    by (vm_compute; discriminate).
  destruct (stuck_session_counts_no_time [(4096%Q, 2%Q, 3%Q); (4096%Q, 4%Q, 6%Q)] _ H)
    as (s' & Hrun & Ht & _ & Hc).
  split; [ exact H | ]. exists s'. split; [ exact Hrun | split ].
  - exact Ht.
  - exact Hc.
Defined.

(** X3.  On an idle session, synchronous collectives one after the other
    never raise and leave the session idle; [total_time] grows by the sum of
    the times spent inside the calls, whatever time passes between them, and
    [total_cnt] by their number. *)
Theorem sequential_calls_add_their_durations :
  forall (cs : list (Q * Q * Q)) (s : CommProfiler.t),
    running_ops s = 0 ->
    start_time s = None ->
    exists s' : CommProfiler.t,
      run (Tally.sync_calls cs) s = (Returns tt, s') /\
      (total_time s' == total_time s + Tally.durations cs)%Q /\
      running_ops s' = 0 /\
      start_time s' = None /\
      total_cnt s' = total_cnt s + Z.of_nat (length cs).
Proof.
  induction cs as [| [[vol t_call] t_ret] cs IH]; intros s Hops Hst.
  - exists s. simpl. repeat split; try assumption; try lia. lra.
  - cbn [Tally.sync_calls flat_map fst snd app run step]. unfold bind at 1.
    rewrite new_runs. unfold bind at 1.
    match goal with |- context [CommProfiler.finish _ ?s1] =>
      rewrite (finish_closes t_ret t_call s1)
        by (cbn [running_ops start_time]; rewrite ?Hops, ?Hst; reflexivity) end.
    cbn [running_ops total_time total_vol total_cnt start_time].
    match goal with |- context [run _ ?s2] =>
      destruct (IH s2) as (s' & Hrun & Ht & Ho & Hs & Hc) end.
    { cbn [running_ops]. lia. }
    { reflexivity. }
    exists s'. fold (Tally.sync_calls cs). rewrite Hrun.
    cbn [running_ops total_time total_cnt start_time] in *.
    repeat split; try assumption.
    + rewrite Ht. cbn [Tally.durations fold_right fst snd].
      fold (Tally.durations cs). lra.
    + rewrite Hc. cbn [length]. lia.
Qed.

Lemma sequential_calls_witness :
  running_ops CommProfiler.reset_state = 0 /\
  start_time CommProfiler.reset_state = None /\
  exists s' : CommProfiler.t,
    run (Tally.sync_calls [(4096%Q, 2%Q, 3%Q); (4096%Q, 7%Q, 9%Q)])
        CommProfiler.reset_state = (Returns tt, s') /\
    (total_time s' == 3)%Q.
Proof.
  destruct (sequential_calls_add_their_durations
              [(4096%Q, 2%Q, 3%Q); (4096%Q, 7%Q, 9%Q)]
              CommProfiler.reset_state eq_refl eq_refl)
    as (s' & Hrun & Ht & _).
  split; [ reflexivity | split; [ reflexivity | ] ].
  exists s'. split; [ exact Hrun | ]. rewrite Ht. reflexivity.
Defined.

Lemma upd_other (p q : Comm.ref) (o : CommProfiler.t) (h : Comm.ref -> CommProfiler.t) :
  q <> p -> Comm.upd p o h q = h q.
Proof.
  intros H. unfold Comm.upd. destruct (Nat.eqb_spec q p); [ contradiction | reflexivity ].
Qed.

Lemma issue_shape_nonzero (c : Comm.collective) (p : Comm.ref) (t_call : Q) :
  match c with
  | Comm.Broadcast _ _ _ | Comm.Reduce _ _ _ _ => True
  | _ => Comm.group_size (Comm.group_of c) <> 0
  end ->
  exists vol, forall async_op t_ret w,
      Comm.issue c async_op p t_call t_ret w =
      (Comm.new p vol t_call ;;;
       wk <- Comm.torch_collective async_op ;;
       Comm.complete p async_op wk t_ret)%py w.
Proof.
  intros HP.
  destruct c; cbn [Comm.group_of] in HP; eexists; intros; simpl.
  - now apply all_reduce_unfold.
  - now apply reduce_scatter_unfold.
  - now apply all_gather_unfold.
  - reflexivity.
  - reflexivity.
Qed.

(** [new] and [finish] on [p] as seen from the store. *)
Lemma comm_finish_runs (p : Comm.ref) (now t0 : Q) (w : Comm.World) :
  start_time (Comm.objs w p) = Some t0 ->
  Comm.finish p now w =
  (Returns tt,
   {| Comm.objs :=
        Comm.upd p
          {| running_ops := running_ops (Comm.objs w p) - 1;
             total_time := if running_ops (Comm.objs w p) =? 1
                           then (total_time (Comm.objs w p) + (now - t0))%Q
                           else total_time (Comm.objs w p);
             total_vol := total_vol (Comm.objs w p);
             total_cnt := total_cnt (Comm.objs w p);
             start_time := if running_ops (Comm.objs w p) =? 1
                           then None else Some t0 |}
          (Comm.objs w);
      Comm.dist := Comm.dist w |}).
Proof.
  intros Hst. unfold Comm.finish, Comm.on. now rewrite (finish_runs now t0 _ Hst).
Qed.

(** X4.  On an idle session ([running_ops] 0, no window open) a synchronous
    call of any of the five wrappers, in a group of size P >= 1, returns
    [None], adds 1 to [total_cnt] and exactly the time between its entry and
    the return of the engine to [total_time], and leaves the session idle
    again. *)
Theorem sync_call_on_idle :
  forall (c : Comm.collective) (p : Comm.ref) (w : Comm.World) (t_call t_ret : Q),
    1 <= Comm.group_size (Comm.group_of c) ->
    running_ops (Comm.objs w p) = 0 ->
    start_time (Comm.objs w p) = None ->
    let r := Comm.issue c false p t_call t_ret w in
    fst r = Returns None /\
    running_ops (Comm.objs (snd r) p) = 0 /\
    start_time (Comm.objs (snd r) p) = None /\
    total_cnt (Comm.objs (snd r) p) = total_cnt (Comm.objs w p) + 1 /\
    total_time (Comm.objs (snd r) p)
    = (total_time (Comm.objs w p) + (t_ret - t_call))%Q.
Proof.
  intros c p w t_call t_ret HP Hops Hst r. subst r.
  destruct (issue_shape c p t_call HP) as [vol Hshape].
  rewrite Hshape, shape_sync, comm_new_runs. cbn [fst snd].
  erewrite comm_finish_runs
    by (cbn [Comm.objs]; rewrite upd_same; reflexivity).
  cbn [snd Comm.objs]. rewrite !upd_same.
  cbn [running_ops start_time total_cnt total_time].
  rewrite Hops, Hst. repeat split.
Qed.

Lemma sync_call_on_idle_witness :
  1 <= Comm.group_size (Comm.group_of
         (Comm.Broadcast (Comm.mkTensor 4 1024) 0 (Comm.mkGroup 4))) /\
  running_ops (Comm.objs Comm.fresh 0%nat) = 0 /\
  start_time (Comm.objs Comm.fresh 0%nat) = None /\
  total_time
    (Comm.objs
       (snd (Comm.issue (Comm.Broadcast (Comm.mkTensor 4 1024) 0 (Comm.mkGroup 4))
               false 0%nat 2 5 Comm.fresh)) 0%nat)
  = (0 + (5 - 2))%Q.
Proof.
  assert (H : 1 <= Comm.group_size (Comm.group_of
                (Comm.Broadcast (Comm.mkTensor 4 1024) 0 (Comm.mkGroup 4))))
    by (simpl; lia).
  destruct (sync_call_on_idle
              (Comm.Broadcast (Comm.mkTensor 4 1024) 0 (Comm.mkGroup 4))
              0%nat Comm.fresh 2 5 H eq_refl eq_refl) as (_ & _ & _ & _ & Ht).
  split; [ exact H | split; [ reflexivity | split; [ reflexivity | exact Ht ] ] ].
Defined.

(** X5.  A second [wait()] on the handle of an asynchronous call issued on
    an idle session does not raise: it takes [running_ops] to -1 and adds
    nothing to [total_time], which holds the time from the issue to the
    first [wait()]. *)
Theorem second_wait_goes_negative :
  forall (c : Comm.collective) (p : Comm.ref) (w : Comm.World)
         (t_call t_ret t1 t2 : Q),
    1 <= Comm.group_size (Comm.group_of c) ->
    running_ops (Comm.objs w p) = 0 ->
    start_time (Comm.objs w p) = None ->
    exists h : Comm.CommHandler,
      fst (Comm.issue c true p t_call t_ret w) = Returns (Some h) /\
      let w1 := snd (Comm.wait h t1 (snd (Comm.issue c true p t_call t_ret w))) in
      let again := Comm.wait h t2 w1 in
      total_time (Comm.objs w1 p)
      = (total_time (Comm.objs w p) + (t1 - t_call))%Q /\
      fst again = Returns tt /\
      running_ops (Comm.objs (snd again) p) = -1 /\
      start_time (Comm.objs (snd again) p) = None /\
      total_time (Comm.objs (snd again) p) = total_time (Comm.objs w1 p).
Proof.
  intros c p w t_call t_ret t1 t2 HP Hops Hst.
  destruct (issue_shape c p t_call HP) as [vol Hshape].
  rewrite Hshape, shape_async.
  exists (Comm.mkHandler p (Some Comm.WorkToken)).
  split; [ reflexivity | ].
  unfold Comm.wait. cbn [Comm.work Comm.prof fst snd].
  rewrite comm_new_runs. cbn [snd].
  erewrite comm_finish_runs
    by (cbn [Comm.objs]; rewrite upd_same; reflexivity).
  cbn [snd Comm.objs]. rewrite !upd_same.
  cbn [running_ops start_time total_cnt total_time]. rewrite Hops, Hst.
  cbn [Z.add Z.eqb Z.sub Z.opp Z.pos_sub Pos.eqb].
  unfold Comm.finish, Comm.on. cbn [Comm.objs]. rewrite upd_same.
  rewrite finish_inner by (cbn [running_ops]; lia).
  cbn [fst snd Comm.objs]. rewrite upd_same.
  cbn [running_ops start_time total_time]. repeat split.
Qed.

Lemma second_wait_witness :
  1 <= Comm.group_size (Comm.group_of
         (Comm.AllReduce (Comm.mkTensor 4 1024) Comm.SUM (Comm.mkGroup 2))) /\
  running_ops (Comm.objs Comm.fresh 0%nat) = 0 /\
  start_time (Comm.objs Comm.fresh 0%nat) = None /\
  exists h : Comm.CommHandler,
    fst (Comm.issue (Comm.AllReduce (Comm.mkTensor 4 1024) Comm.SUM (Comm.mkGroup 2))
           true 0%nat 1 2 Comm.fresh) = Returns (Some h) /\
    running_ops
      (Comm.objs
         (snd (Comm.wait h 9
                 (snd (Comm.wait h 5
                         (snd (Comm.issue
                                 (Comm.AllReduce (Comm.mkTensor 4 1024) Comm.SUM
                                    (Comm.mkGroup 2))
                                 true 0%nat 1 2 Comm.fresh))))))
         0%nat) = -1.
Proof.
  assert (H : 1 <= Comm.group_size (Comm.group_of
                (Comm.AllReduce (Comm.mkTensor 4 1024) Comm.SUM (Comm.mkGroup 2))))
    by (simpl; lia).
  destruct (second_wait_goes_negative
              (Comm.AllReduce (Comm.mkTensor 4 1024) Comm.SUM (Comm.mkGroup 2))
              0%nat Comm.fresh 1 2 5 9 H eq_refl eq_refl)
    as (h & Hh & _ & _ & Hneg & _).
  split; [ exact H | split; [ reflexivity | split; [ reflexivity | ] ] ].
  exists h. split; [ exact Hh | exact Hneg ].
Defined.

Lemma on_frame {A} (p q : Comm.ref) (m : M CommProfiler.t A) (w : Comm.World) :
  q <> p ->
  Comm.objs (snd (Comm.on p m w)) q = Comm.objs w q /\
  Comm.dist (snd (Comm.on p m w)) = Comm.dist w.
Proof.
  intros H. unfold Comm.on. destruct (m (Comm.objs w p)) as [r o].
  cbn [snd Comm.objs Comm.dist]. now rewrite upd_other.
Qed.

(** X6.  A call of a wrapper for the profiler [p], synchronous or not,
    changes no other profiler and no entry point of [dist].  It raises only
    for all-reduce, reduce-scatter and all-gather in a group of size 0, with
    [ZeroDivisionError], and then before anything is recorded: the world is
    as it was. *)
Theorem wrapper_is_local_and_atomic :
  forall (c : Comm.collective) (async_op : bool) (p : Comm.ref)
         (t_call t_ret : Q) (w : Comm.World),
    let r := Comm.issue c async_op p t_call t_ret w in
    (forall q : Comm.ref, q <> p -> Comm.objs (snd r) q = Comm.objs w q) /\
    Comm.dist (snd r) = Comm.dist w /\
    (forall e, fst r = Raises e ->
               e = ZeroDivisionError /\
               Comm.group_size (Comm.group_of c) = 0 /\
               snd r = w) /\
    (is_raise (fst r) = true <->
     Comm.group_size (Comm.group_of c) = 0 /\
     match c with
     | Comm.Broadcast _ _ _ | Comm.Reduce _ _ _ _ => False
     | _ => True
     end).
Proof.
  intros c async_op p t_call t_ret w r.
  assert (Hshape : forall vol,
             Comm.issue c async_op p t_call t_ret w =
             (Comm.new p vol t_call ;;;
              wk <- Comm.torch_collective async_op ;;
              Comm.complete p async_op wk t_ret)%py w ->
             (forall q : Comm.ref, q <> p -> Comm.objs (snd r) q = Comm.objs w q) /\
             Comm.dist (snd r) = Comm.dist w /\
             is_raise (fst r) = false).
  { intros vol E. subst r. rewrite E.
    destruct async_op.
    - rewrite shape_async. cbn [fst snd].
      repeat split; try (intros q Hq); now apply on_frame || reflexivity.
    - rewrite shape_sync. cbn [fst snd]. repeat split.
      + intros q Hq. unfold Comm.finish, Comm.new.
        destruct (on_frame p q (CommProfiler.finish t_ret)
                    (snd (Comm.on p (CommProfiler.new vol t_call) w)) Hq) as [H1 _].
        rewrite H1. now apply on_frame.
      + unfold Comm.finish, Comm.new.
        destruct (on_frame p (S p) (CommProfiler.finish t_ret)
                    (snd (Comm.on p (CommProfiler.new vol t_call) w))) as [_ H2];
          [ lia | ].
        rewrite H2. apply (on_frame p (S p)). lia. }
  assert (Hzero : Comm.group_size (Comm.group_of c) = 0 ->
                  match c with
                  | Comm.Broadcast _ _ _ | Comm.Reduce _ _ _ _ => False
                  | _ => True
                  end ->
                  r = (Raises ZeroDivisionError, w)).
  { intros H0 Hc. subst r.
    destruct c as [tensor op [P] | output input_list op [P] | tensor_list tensor [P]
                   | tensor src g | tensor dst op g];
      cbn [Comm.group_of Comm.group_size] in H0; try contradiction; subst P;
      reflexivity. }
  destruct (Z.eq_dec (Comm.group_size (Comm.group_of c)) 0) as [E0 | E0].
  - destruct c as [tensor op g | output input_list op g | tensor_list tensor g
                   | tensor src g | tensor dst op g].
    1-3: rewrite (Hzero E0 I); cbn [fst snd];
         (repeat split; try reflexivity; try assumption; try (intros; congruence));
         intros e He; injection He as <-; (repeat split; assumption || reflexivity).
    all: destruct (Hshape _ eq_refl) as (Hq & Hd & Hr);
         (split; [ exact Hq | split; [ exact Hd | split ] ]);
         [ intros e He; rewrite He in Hr; discriminate Hr
         | rewrite Hr; split; [ discriminate | intros [_ []] ] ].
  - destruct (issue_shape_nonzero c p t_call) as [vol Hvol].
    { destruct c; try exact I; exact E0. }
    destruct (Hshape vol (Hvol _ _ _)) as (Hq & Hd & Hr).
    split; [ exact Hq | split; [ exact Hd | split ] ].
    + intros e He. rewrite He in Hr. discriminate Hr.
    + rewrite Hr. split; [ discriminate | intros [H _]; contradiction ].
Qed.

Lemma wrapper_local_witness :
  1%nat <> 0%nat /\
  Comm.objs
    (snd (Comm.issue (Comm.AllGather [Comm.mkTensor 4 8] (Comm.mkTensor 4 8)
                        (Comm.mkGroup 2)) true 0%nat 1 2 Comm.fresh)) 1%nat
  = Comm.objs Comm.fresh 1%nat /\
  Comm.issue (Comm.AllReduce (Comm.mkTensor 4 8) Comm.SUM (Comm.mkGroup 0))
    false 0%nat 1 2 Comm.fresh
  = (Raises ZeroDivisionError, Comm.fresh).
Proof.
  assert (H : 1%nat <> 0%nat) by discriminate.
  destruct (wrapper_is_local_and_atomic
              (Comm.AllGather [Comm.mkTensor 4 8] (Comm.mkTensor 4 8) (Comm.mkGroup 2))
              true 0%nat 1 2 Comm.fresh) as (Hloc & _).
  destruct (wrapper_is_local_and_atomic
              (Comm.AllReduce (Comm.mkTensor 4 8) Comm.SUM (Comm.mkGroup 0))
              false 0%nat 1 2 Comm.fresh) as (_ & _ & Hraise & _).
  split; [ exact H | split; [ exact (Hloc 1%nat H) | ] ].
  destruct (Hraise ZeroDivisionError eq_refl) as (_ & _ & Hw).
  apply injective_projections; [ reflexivity | exact Hw ].
Defined.

(** X7.  [stop] puts back the functions of the engine, not what was bound
    before the matching [start]: when a window of [q] is opened and closed
    inside a window of [p], the window of [p] is over as well.  From then on
    none of the five calls through [dist] records anything: each returns
    what the engine returns and leaves every profiler as it was. *)
Theorem inner_stop_closes_outer_window :
  forall (p q : Comm.ref) (w : Comm.World) (async_op : bool) (t_call t_ret : Q),
    let w' := snd ((Comm.start p ;;; Comm.start q ;;; Comm.stop q)%py w) in
    let raw := Returns (if async_op then Some (Comm.Raw Comm.WorkToken) else None) in
    Comm.objs w' = Comm.objs w /\
    (forall tensor op group,
        Comm.dist_all_reduce tensor op group async_op t_call t_ret w' = (raw, w')) /\
    (forall output input_list op group,
        Comm.dist_reduce_scatter output input_list op group async_op t_call t_ret w'
        = (raw, w')) /\
    (forall tensor_list tensor group,
        Comm.dist_all_gather tensor_list tensor group async_op t_call t_ret w'
        = (raw, w')) /\
    (forall tensor src group,
        Comm.dist_broadcast tensor src group async_op t_call t_ret w' = (raw, w')) /\
    (forall tensor dst op group,
        Comm.dist_reduce tensor dst op group async_op t_call t_ret w' = (raw, w')).
Proof.
  intros p q w async_op t_call t_ret w' raw.
  repeat split; intros; destruct async_op; reflexivity.
Qed.

(** ** Bounds on the recorded volume *)

Lemma share_of_group (P : Z) :
  1 <= P ->
  (0 <= (inject_Z P - 1) / inject_Z P /\ (inject_Z P - 1) / inject_Z P <= 1)%Q.
Proof.
  intros HP.
  assert (H1 : (1 <= inject_Z P)%Q).
  { change 1%Q with (inject_Z 1). rewrite <- Zle_Qle. exact HP. }
  assert (Hinv : (0 < / inject_Z P)%Q) by (apply Qinv_lt_0_compat; lra).
  unfold Qdiv. split.
  - apply Qmult_le_0_compat; lra.
  - apply Qle_shift_div_r; lra.
Qed.

Lemma sumZ_nonneg (l : list Z) : Forall (fun b => 0 <= b) l -> 0 <= Model.sumZ l.
Proof.
  induction 1 as [| b l Hb Hl IH]; simpl; lia.
Qed.

(** X8.  Inside a window, in a group of size P >= 1 and for tensors of
    non-negative size, an all-reduce never lowers [total_vol] and adds at
    most twice the bytes of its tensor; a reduce-scatter or an all-gather
    never lowers it and adds at most the bytes of its list. *)
Theorem recorded_volume_bounds :
  forall (group : Comm.ProcessGroup) (p : Comm.ref) (w : Comm.World)
         (op : Comm.ReduceOp) (async_op : bool) (t_call t_ret : Q),
    1 <= Comm.group_size group ->
    let w1 := snd (Comm.start p w) in
    let before := total_vol (Comm.objs w p) in
    (forall tensor,
        0 <= Comm.nbytes tensor ->
        let after := total_vol (Comm.objs
                       (snd (Comm.dist_all_reduce tensor op group async_op
                               t_call t_ret w1)) p) in
        (before <= after <= before + 2 * inject_Z (Comm.nbytes tensor))%Q) /\
    (forall output input_list,
        Forall (fun t => 0 <= Comm.nbytes t) input_list ->
        let after := total_vol (Comm.objs
                       (snd (Comm.dist_reduce_scatter output input_list op group
                               async_op t_call t_ret w1)) p) in
        (before <= after
         <= before + inject_Z (Model.sumZ (map Comm.nbytes input_list)))%Q) /\
    (forall tensor_list tensor,
        Forall (fun t => 0 <= Comm.nbytes t) tensor_list ->
        let after := total_vol (Comm.objs
                       (snd (Comm.dist_all_gather tensor_list tensor group
                               async_op t_call t_ret w1)) p) in
        (before <= after
         <= before + inject_Z (Model.sumZ (map Comm.nbytes tensor_list)))%Q).
Proof.
  intros group p w op async_op t_call t_ret HP w1 before.
  destruct (share_of_group (Comm.get_world_size group) HP) as [Hlo Hhi].
  set (x := ((inject_Z (Comm.get_world_size group) - 1)
             / inject_Z (Comm.get_world_size group))%Q) in *.
  repeat apply conj.
  - intros tensor HB after.
    destruct (all_reduce_in_window p w async_op t_call t_ret tensor op group HP)
      as [_ Hvol].
    subst after before w1. rewrite Hvol. unfold Model.all_reduce_volume.
    assert (HB' : (0 <= inject_Z (Comm.nbytes tensor))%Q)
      by (change 0%Q with (inject_Z 0); now rewrite <- Zle_Qle).
    set (B := inject_Z (Comm.nbytes tensor)) in *.
    assert (E : (2 * (inject_Z (Comm.get_world_size group) - 1)
                 / inject_Z (Comm.get_world_size group) * B == 2 * x * B)%Q).
    { subst x. field. apply inject_Z_nonzero. exact HP. }
    rewrite E. split; nra.
  - intros output input_list HB after.
    destruct (reduce_scatter_in_window p w async_op t_call t_ret
                output input_list op group HP) as [_ Hvol].
    subst after before w1. rewrite Hvol. unfold Model.gather_volume. fold x.
    assert (HB' : (0 <= inject_Z (Model.sumZ (map Comm.nbytes input_list)))%Q).
    { change 0%Q with (inject_Z 0). rewrite <- Zle_Qle.
      apply sumZ_nonneg. now apply Forall_map. }
    set (B := inject_Z _) in *. split; nra.
  - intros tensor_list tensor HB after.
    destruct (all_gather_in_window p w async_op t_call t_ret
                tensor_list tensor group HP) as [_ Hvol].
    subst after before w1. rewrite Hvol. unfold Model.gather_volume. fold x.
    assert (HB' : (0 <= inject_Z (Model.sumZ (map Comm.nbytes tensor_list)))%Q).
    { change 0%Q with (inject_Z 0). rewrite <- Zle_Qle.
      apply sumZ_nonneg. now apply Forall_map. }
    set (B := inject_Z _) in *. split; nra.
Qed.

Lemma recorded_volume_bounds_witness :
  1 <= Comm.group_size (Comm.mkGroup 4) /\
  0 <= Comm.nbytes (Comm.mkTensor 4 1024) /\
  (total_vol (Comm.objs Comm.fresh 0%nat)
   <= total_vol
        (Comm.objs
           (snd (Comm.dist_all_reduce (Comm.mkTensor 4 1024) Comm.SUM
                   (Comm.mkGroup 4) false 0 1 (snd (Comm.start 0%nat Comm.fresh))))
           0%nat)
   <= total_vol (Comm.objs Comm.fresh 0%nat)
      + 2 * inject_Z (Comm.nbytes (Comm.mkTensor 4 1024)))%Q.
Proof.
  assert (H : 1 <= Comm.group_size (Comm.mkGroup 4)) by (simpl; lia).
  assert (HB : 0 <= Comm.nbytes (Comm.mkTensor 4 1024)) by (vm_compute; discriminate).
  destruct (recorded_volume_bounds (Comm.mkGroup 4) 0%nat Comm.fresh Comm.SUM
              false 0 1 H) as (Har & _).
  split; [ exact H | split; [ exact HB | exact (Har (Comm.mkTensor 4 1024) HB) ] ].
Defined.

(** * Further properties of the metrics *)

(** X9.  [Accuracy()] looks its counting function up by the tensor-parallel
    mode: no mode and ["1d"] both give the standard one, ["2d"] and ["3d"]
    their own, each with both counters at zero; any other mode raises
    [KeyError]. *)
Theorem accuracy_init_table :
  forall (Logits Targets : Type)
         (calc_acc calc_acc_2d calc_acc_3d : Logits -> Targets -> Z),
    let init := Accuracy.init Logits Targets calc_acc calc_acc_2d calc_acc_3d in
    let fresh := fun f => Returns (Accuracy.mk Logits Targets f zeros_int zeros_int) in
    init None = fresh calc_acc /\
    init (Some "1d"%string) = fresh calc_acc /\
    init (Some "2d"%string) = fresh calc_acc_2d /\
    init (Some "3d"%string) = fresh calc_acc_3d /\
    (forall k : String.string,
        k <> "1d"%string -> k <> "2d"%string -> k <> "3d"%string ->
        init (Some k) = Raises KeyError).
Proof.
  intros Logits Targets calc_acc calc_acc_2d calc_acc_3d init fresh.
  repeat split. intros k H1 H2 H3. subst init.
  unfold Accuracy.init, Accuracy._parallel_accuracy.
  destruct (String.eqb_spec k "1d"); [ contradiction | ].
  destruct (String.eqb_spec k "2d"); [ contradiction | ].
  destruct (String.eqb_spec k "3d"); [ contradiction | reflexivity ].
Qed.

Lemma accuracy_init_witness :
  ("4d" <> "1d")%string /\ ("4d" <> "2d")%string /\ ("4d" <> "3d")%string /\
  Accuracy.init unit unit (fun _ _ => 0) (fun _ _ => 0) (fun _ _ => 0)
    (Some "4d"%string) = Raises KeyError.
Proof.
  assert (H1 : ("4d" <> "1d")%string) by discriminate.
  assert (H2 : ("4d" <> "2d")%string) by discriminate.
  assert (H3 : ("4d" <> "3d")%string) by discriminate.
  destruct (accuracy_init_table unit unit (fun _ _ => 0) (fun _ _ => 0)
              (fun _ _ => 0)) as (_ & _ & _ & _ & Hk).
  split; [ exact H1 | split; [ exact H2 | split; [ exact H3 | ] ] ].
  exact (Hk "4d"%string H1 H2 H3).
Defined.

Lemma wrap32_range (z : Z) : in_int32 (wrap32 z).
Proof.
  unfold in_int32, wrap32.
  pose proof (Z.mod_pos_bound (z + 2 ^ 31) (2 ^ 32) ltac:(lia)). lia.
Qed.

Lemma wrap32_zero : wrap32 0 = 0.
Proof. reflexivity. Qed.

Section AccuracyBatches.

Variables Logits Targets : Type.
Variable size0 : Targets -> Z.

Let batch : Type := (Logits * Targets * xreal)%type.

Let forward_batch (b : batch) : M (Accuracy.t Logits Targets) xreal :=
  Accuracy.forward size0 (fst (fst b)) (snd (fst b)) (snd b).

Lemma accuracy_forward_runs (b : batch) (self : Accuracy.t Logits Targets) :
  forward_batch b self =
  (Returns (true_divide (Accuracy.acc self (fst (fst b)) (snd (fst b)))
                        (size0 (snd (fst b)))),
   Accuracy.mk Logits Targets (Accuracy.acc self)
     (iadd (Accuracy.total_correct self)
           (Accuracy.acc self (fst (fst b)) (snd (fst b))))
     (iadd (Accuracy.total_samples self) (size0 (snd (fst b))))).
Proof. reflexivity. Qed.

Lemma accuracy_forwards (batches : list batch) :
  forall (self : Accuracy.t Logits Targets) (c n : Z),
    signed (Accuracy.total_correct self) = wrap32 c ->
    signed (Accuracy.total_samples self) = wrap32 n ->
    exists s' : Accuracy.t Logits Targets,
      Batches.for_each forward_batch batches self
      = (Returns (map (fun b => true_divide
                                  (Accuracy.acc self (fst (fst b)) (snd (fst b)))
                                  (size0 (snd (fst b)))) batches),
         s') /\
      Accuracy.acc s' = Accuracy.acc self /\
      signed (Accuracy.total_correct s')
      = wrap32 (c + Model.sumZ
                      (map (fun b => Accuracy.acc self (fst (fst b)) (snd (fst b)))
                           batches)) /\
      signed (Accuracy.total_samples s')
      = wrap32 (n + Model.sumZ (map (fun b => size0 (snd (fst b))) batches)).
Proof.
  induction batches as [| b batches IH]; intros self c n Hc Hn.
  - exists self. cbn. rewrite !Z.add_0_r. repeat split; assumption.
  - cbn [Batches.for_each]. unfold bind at 1.
    rewrite accuracy_forward_runs. unfold bind at 1.
    match goal with |- context [Batches.for_each _ _ ?s1] =>
      destruct (IH s1
                  (c + Accuracy.acc self (fst (fst b)) (snd (fst b)))
                  (n + size0 (snd (fst b))))
        as (s' & Hrun & Hacc & Hcor & Hsam);
        [ cbn [Accuracy.total_correct iadd signed]; rewrite Hc;
          apply wrap32_add_l
        | cbn [Accuracy.total_samples iadd signed]; rewrite Hn;
          apply wrap32_add_l
        | ] end.
    cbn [Accuracy.acc] in *. rewrite Hrun. exists s'. unfold ret.
    unfold Model.sumZ in *. cbn [map fold_right].
    repeat split; try assumption.
    + rewrite Hcor. f_equal. lia.
    + rewrite Hsam. f_equal. lia.
Qed.

End AccuracyBatches.

(** X10.  After [reset()], forwarding any list of batches never raises; each
    call returns its own correct / batch_size; the function chosen at
    construction is kept; and the two counters hold the sums of the correct
    counts and of the batch sizes modulo 2^32, within the signed 32-bit
    range: exactly those sums as long as they fit. *)
Theorem accuracy_accumulates :
  forall (Logits Targets : Type) (size0 : Targets -> Z)
         (self : Accuracy.t Logits Targets)
         (batches : list (Logits * Targets * xreal)),
    let correct := Model.sumZ
          (map (fun b => Accuracy.acc self (fst (fst b)) (snd (fst b))) batches) in
    let samples := Model.sumZ (map (fun b => size0 (snd (fst b))) batches) in
    let r := (Accuracy.reset ;;;
              Batches.for_each
                (fun b => Accuracy.forward size0 (fst (fst b)) (snd (fst b)) (snd b))
                batches)%py self in
    fst r
    = Returns (map (fun b => true_divide
                               (Accuracy.acc self (fst (fst b)) (snd (fst b)))
                               (size0 (snd (fst b)))) batches) /\
    Accuracy.acc (snd r) = Accuracy.acc self /\
    signed (Accuracy.total_correct (snd r)) = wrap32 correct /\
    signed (Accuracy.total_samples (snd r)) = wrap32 samples /\
    in_int32 (signed (Accuracy.total_correct (snd r))) /\
    in_int32 (signed (Accuracy.total_samples (snd r))) /\
    (in_int32 correct -> signed (Accuracy.total_correct (snd r)) = correct) /\
    (in_int32 samples -> signed (Accuracy.total_samples (snd r)) = samples).
Proof.
  intros Logits Targets size0 self batches correct samples r.
  subst r.
  change ((Accuracy.reset ;;;
           Batches.for_each
             (fun b => Accuracy.forward size0 (fst (fst b)) (snd (fst b)) (snd b))
             batches)%py self)
    with (Batches.for_each
            (fun b => Accuracy.forward size0 (fst (fst b)) (snd (fst b)) (snd b))
            batches
            (Accuracy.mk Logits Targets (Accuracy.acc self) zeros_int zeros_int)).
  match goal with |- context [Batches.for_each _ _ ?s0] =>
    destruct (accuracy_forwards Logits Targets size0 batches s0 0 0 eq_refl eq_refl)
      as (s' & Hrun & Hacc & Hcor & Hsam) end.
  cbn [Accuracy.acc] in *. rewrite !Z.add_0_l in *.
  fold correct in Hcor. fold samples in Hsam.
  rewrite Hrun. cbn [fst snd].
  split; [ reflexivity | ].
  split; [ exact Hacc | ].
  split; [ exact Hcor | ].
  split; [ exact Hsam | ].
  split; [ rewrite Hcor; apply wrap32_range | ].
  split; [ rewrite Hsam; apply wrap32_range | ].
  split; intros H.
  - rewrite Hcor. now apply wrap32_in_range.
  - rewrite Hsam. now apply wrap32_in_range.
Qed.

Lemma accuracy_accumulates_witness :
  in_int32 (Model.sumZ (map (fun b : Z * Z * xreal => fst (fst b))
                            [(3, 4, Fin 0); (1, 4, Fin 0)])) /\
  signed (Accuracy.total_correct
            (snd ((Accuracy.reset ;;;
                   Batches.for_each
                     (fun b : Z * Z * xreal =>
                        Accuracy.forward (fun t : Z => t)
                          (fst (fst b)) (snd (fst b)) (snd b))
                     [(3, 4, Fin 0); (1, 4, Fin 0)])%py
                    (Accuracy.mk Z Z (fun l _ => l) (I32 7) (I32 9)))))
  = Model.sumZ (map (fun b : Z * Z * xreal => fst (fst b))
                    [(3, 4, Fin 0); (1, 4, Fin 0)]).
Proof.
  assert (H : in_int32 (Model.sumZ (map (fun b : Z * Z * xreal => fst (fst b))
                                        [(3, 4, Fin 0); (1, 4, Fin 0)])))
    by (unfold in_int32; simpl; lia).
  destruct (accuracy_accumulates Z Z (fun t : Z => t)
              (Accuracy.mk Z Z (fun l _ => l) (I32 7) (I32 9))
              [(3, 4, Fin 0); (1, 4, Fin 0)])
    as (_ & _ & _ & _ & _ & _ & Hc & _).
  split; [ exact H | exact (Hc H) ].
Defined.

Lemma xadd_nan_l (x : xreal) : xadd NaN x = NaN.
Proof. reflexivity. Qed.

Lemma xadd_nan_r (x : xreal) : xadd x NaN = NaN.
Proof. now destruct x. Qed.

Lemma fold_xadd_nan (l : list xreal) : fold_left xadd l NaN = NaN.
Proof. induction l as [| x l IH]; simpl; [ reflexivity | exact IH ]. Qed.

Lemma fold_xadd_poisoned (l : list xreal) :
  forall a : xreal, In NaN l -> fold_left xadd l a = NaN.
Proof.
  induction l as [| x l IH]; intros a Hin; simpl in *.
  - contradiction.
  - destruct Hin as [-> | Hin].
    + rewrite xadd_nan_r. apply fold_xadd_nan.
    + now apply IH.
Qed.

Lemma fold_xadd_finite (rs : list R) :
  forall a : R, fold_left xadd (map Fin rs) (Fin a) = Fin (a + Model.sumR rs)%R.
Proof.
  induction rs as [| r rs IH]; intros a; simpl.
  - f_equal. lra.
  - rewrite IH. f_equal. lra.
Qed.

Lemma perplexity_forwards {Logits Targets : Type}
  (batches : list (Logits * Targets * xreal)) :
  forall self : Perplexity.t,
    Batches.for_each
      (fun b => Perplexity.forward (fst (fst b)) (snd (fst b)) (snd b))
      batches self
    = (Returns (map (fun b => Torch.exp (snd b)) batches),
       {| Perplexity.cnt := Perplexity.cnt self + Z.of_nat (length batches);
          Perplexity.total_loss :=
            fold_left xadd (map snd batches) (Perplexity.total_loss self) |}).
Proof.
  induction batches as [| b batches IH]; intros self.
  - cbn. rewrite Z.add_0_r. now destruct self.
  - cbn [Batches.for_each]. unfold bind at 1.
    change (Perplexity.forward (fst (fst b)) (snd (fst b)) (snd b) self)
      with (Returns (Torch.exp (snd b)),
            {| Perplexity.cnt := Perplexity.cnt self + 1;
               Perplexity.total_loss := xadd (Perplexity.total_loss self) (snd b) |}).
    unfold bind at 1. rewrite IH. unfold ret.
    cbn [Perplexity.cnt Perplexity.total_loss map fold_left length].
    do 2 f_equal. lia.
Qed.

(** X11.  After [reset()], forwarding any list of batches never raises;
    each call returns the exponential of its loss; [cnt] is the number of
    batches and [total_loss] the losses added up in order: their sum when
    they are all finite, and NaN as soon as one of them is NaN, whatever
    comes after it. *)
Theorem perplexity_accumulates :
  forall (Logits Targets : Type) (self : Perplexity.t)
         (batches : list (Logits * Targets * xreal)),
    let r := (Perplexity.reset ;;;
              Batches.for_each
                (fun b => Perplexity.forward (fst (fst b)) (snd (fst b)) (snd b))
                batches)%py self in
    fst r = Returns (map (fun b => Torch.exp (snd b)) batches) /\
    Perplexity.cnt (snd r) = Z.of_nat (length batches) /\
    Perplexity.total_loss (snd r) = fold_left xadd (map snd batches) zeros_float /\
    (forall rs : list R,
        map snd batches = map Fin rs ->
        Perplexity.total_loss (snd r) = Fin (Model.sumR rs)) /\
    (In NaN (map snd batches) -> Perplexity.total_loss (snd r) = NaN).
Proof.
  intros Logits Targets self batches r. subst r.
  change ((Perplexity.reset ;;;
           Batches.for_each
             (fun b => Perplexity.forward (fst (fst b)) (snd (fst b)) (snd b))
             batches)%py self)
    with (Batches.for_each
            (fun b => Perplexity.forward (fst (fst b)) (snd (fst b)) (snd b))
            batches Perplexity.reset_state).
  rewrite perplexity_forwards. unfold Perplexity.reset_state.
  cbn [fst snd Perplexity.cnt Perplexity.total_loss].
  split; [ reflexivity | ].
  split; [ reflexivity | ].
  split; [ reflexivity | ].
  split.
  - intros rs E. rewrite E. unfold zeros_float. rewrite fold_xadd_finite.
    f_equal. lra.
  - intros Hin. now apply fold_xadd_poisoned.
Qed.

Lemma perplexity_accumulates_witness :
  In NaN (map snd [(tt, tt, Fin 1); (tt, tt, NaN); (tt, tt, Fin 2)]) /\
  Perplexity.total_loss
    (snd ((Perplexity.reset ;;;
           Batches.for_each
             (fun b : unit * unit * xreal =>
                Perplexity.forward (fst (fst b)) (snd (fst b)) (snd b))
             [(tt, tt, Fin 1); (tt, tt, NaN); (tt, tt, Fin 2)])%py
            Perplexity.reset_state))
  = NaN.
Proof.
  assert (H : In NaN (map snd [(tt, tt, Fin 1); (tt, tt, NaN); (tt, tt, Fin 2)]))
    by (simpl; auto).
  destruct (perplexity_accumulates unit unit Perplexity.reset_state
              [(tt, tt, Fin 1); (tt, tt, NaN); (tt, tt, Fin 2)])
    as (_ & _ & _ & _ & Hnan).
  split; [ exact H | exact (Hnan H) ].
Defined.

(** * Properties of the start-up code *)

Section InitializeFacts.

Import Initialize.
Local Open Scope string_scope.

Variable int : String.string -> Startup.result Z.
Variable ALLOWED_MODES : list (option String.string).

Let init := initialize_distributed int ALLOWED_MODES.

(** What the function does once the environment has been read. *)
Let body (rank local_rank world_size port : Z) (addr : String.string)
  (args : Args) : Startup.M (list call) unit :=
  (let init_method := String.append "tcp://"
                        (String.append addr (String.append ":" (str port))) in
   let backend := match backend args with
                  | None => "nccl"
                  | Some b => b
                  end in
   perform (init_process_group rank world_size backend init_method) ;;;
   perform init_global ;;;
   data_parallel_size <-
     Startup.pure (match tensor_parallel_size args with
                   | None => Startup.Returns world_size
                   | Some tp => floordiv world_size tp
                   end) ;;
   perform (init_data_parallel data_parallel_size) ;;;
   let seed := match seed args with
               | Some s => s
               | None => _DEFAULT_SEED
               end in
   perform (set_seed seed) ;;;
   perform (set_mode (tensor_parallel args)) ;;;
   (if existsb (mode_eqb (tensor_parallel args)) ALLOWED_MODES
    then Startup.ret tt else Startup.pure (Startup.Raises Startup.AssertionError)) ;;;
   (match tensor_parallel args with
    | Some _ => perform (init_tensor_parallel (tensor_parallel_size args) seed)
    | None => Startup.ret tt
    end) ;;;
   perform (set_device local_rank))%startup.

Lemma initialize_with_values (env : environ) (args : Args)
  (rank local_rank world_size port : Z) (addr : String.string) :
  int_of_env int env "RANK" = Startup.Returns rank ->
  int_of_env int env "LOCAL_RANK" = Startup.Returns local_rank ->
  int_of_env int env "WORLD_SIZE" = Startup.Returns world_size ->
  getitem env "MASTER_ADDR" = Startup.Returns addr ->
  int_of_env int env "MASTER_PORT" = Startup.Returns port ->
  init env args = body rank local_rank world_size port addr args.
Proof.
  intros H1 H2 H3 H4 H5. unfold init, initialize_distributed.
  rewrite H1, H2, H3, H4, H5. reflexivity.
Qed.

Lemma int_of_env_missing (env : environ) (key : String.string) :
  env key = None ->
  int_of_env int env key = Startup.Raises (Startup.Builtin KeyError).
Proof. intros H. unfold int_of_env, getitem. now rewrite H. Qed.

Lemma getitem_missing (env : environ) (key : String.string) :
  env key = None ->
  getitem env key = Startup.Raises (Startup.Builtin KeyError).
Proof. intros H. unfold getitem. now rewrite H. Qed.

(** The outcome of the body: which calls are made before it returns or
    raises. *)
Lemma body_runs (rank local_rank world_size port : Z) (addr : String.string)
  (args : Args) (log : list call) :
  let first :=
    [init_process_group rank world_size
       (match backend args with None => "nccl" | Some b => b end)
       (String.append "tcp://" (String.append addr (String.append ":" (str port))));
     init_global] in
  let seeded d :=
    [init_data_parallel d;
     set_seed (match seed args with Some s => s | None => _DEFAULT_SEED end);
     set_mode (tensor_parallel args)] in
  let last :=
    (match tensor_parallel args with
     | Some _ => [init_tensor_parallel (tensor_parallel_size args)
                    (match seed args with Some s => s | None => _DEFAULT_SEED end)]
     | None => []
     end ++ [set_device local_rank])%list in
  body rank local_rank world_size port addr args log =
  match match tensor_parallel_size args with
        | None => Startup.Returns world_size
        | Some tp => floordiv world_size tp
        end with
  | Startup.Raises e => (Startup.Raises e, (log ++ first)%list)
  | Startup.Returns d =>
      if existsb (mode_eqb (tensor_parallel args)) ALLOWED_MODES
      then (Startup.Returns tt, (log ++ first ++ seeded d ++ last)%list)
      else (Startup.Raises Startup.AssertionError,
            (log ++ first ++ seeded d)%list)
  end.
Proof.
  intros first seeded last. subst first seeded last.
  unfold body, Startup.bind, perform, Startup.pure, Startup.ret.
  destruct (match tensor_parallel_size args with
            | None => Startup.Returns world_size
            | Some tp => floordiv world_size tp
            end) as [d | e].
  - destruct (existsb _ _); destruct (tensor_parallel args);
      cbn [app]; rewrite <- ?app_assoc; reflexivity.
  - rewrite <- ?app_assoc. reflexivity.
Qed.

(** X12.  Nothing is called before the five environment variables have been
    read: when one of them is missing the function raises and has made no
    call; and when calls were made, all five were there, the numeric ones
    accepted by [int], and the first two calls are [init_process_group],
    with the rank, the world size and the address read from the
    environment, and [init_global]. *)
Theorem initialize_reads_before_calling :
  forall (env : environ) (args : Args) (log : list call),
    let r := init env args log in
    ((env "RANK" = None \/ env "LOCAL_RANK" = None \/ env "WORLD_SIZE" = None \/
      env "MASTER_ADDR" = None \/ env "MASTER_PORT" = None) ->
     snd r = log /\ Startup.is_raise (fst r) = true) /\
    (snd r <> log ->
     exists rank local_rank world_size port addr rest,
       int_of_env int env "RANK" = Startup.Returns rank /\
       int_of_env int env "LOCAL_RANK" = Startup.Returns local_rank /\
       int_of_env int env "WORLD_SIZE" = Startup.Returns world_size /\
       getitem env "MASTER_ADDR" = Startup.Returns addr /\
       int_of_env int env "MASTER_PORT" = Startup.Returns port /\
       snd r
       = (log ++
          init_process_group rank world_size
            (match backend args with None => "nccl" | Some b => b end)
            (String.append "tcp://"
               (String.append addr (String.append ":" (str port))))
          :: init_global :: rest)%list).
Proof.
  intros env args log r.
  assert (Hcases :
            (snd r = log /\ Startup.is_raise (fst r) = true) \/
            exists rank local_rank world_size port addr,
              int_of_env int env "RANK" = Startup.Returns rank /\
              int_of_env int env "LOCAL_RANK" = Startup.Returns local_rank /\
              int_of_env int env "WORLD_SIZE" = Startup.Returns world_size /\
              getitem env "MASTER_ADDR" = Startup.Returns addr /\
              int_of_env int env "MASTER_PORT" = Startup.Returns port).
  { subst r. unfold init, initialize_distributed.
    destruct (int_of_env int env "RANK") as [rank | e1];
      [ | left; split; reflexivity ].
    destruct (int_of_env int env "LOCAL_RANK") as [local_rank | e2];
      [ | left; split; reflexivity ].
    destruct (int_of_env int env "WORLD_SIZE") as [world_size | e3];
      [ | left; split; reflexivity ].
    destruct (getitem env "MASTER_ADDR") as [addr | e4];
      [ | left; split; reflexivity ].
    destruct (int_of_env int env "MASTER_PORT") as [port | e5];
      [ | left; split; reflexivity ].
    right. exists rank, local_rank, world_size, port, addr. repeat split. }
  split.
  - intros Hmiss. destruct Hcases as [H | (rank & lr & ws & port & addr & H1 & H2 & H3 & H4 & H5)];
      [ exact H | exfalso ].
    destruct Hmiss as [H | [H | [H | [H | H]]]].
    + rewrite (int_of_env_missing _ _ H) in H1. discriminate H1.
    + rewrite (int_of_env_missing _ _ H) in H2. discriminate H2.
    + rewrite (int_of_env_missing _ _ H) in H3. discriminate H3.
    + rewrite (getitem_missing _ _ H) in H4. discriminate H4.
    + rewrite (int_of_env_missing _ _ H) in H5. discriminate H5.
  - intros Hlog. destruct Hcases as [[H _] | (rank & lr & ws & port & addr & H1 & H2 & H3 & H4 & H5)];
      [ contradiction | ].
    exists rank, lr, ws, port, addr.
    subst r. rewrite (initialize_with_values env args rank lr ws port addr H1 H2 H3 H4 H5).
    rewrite body_runs.
    destruct (match tensor_parallel_size args with
              | None => Startup.Returns ws
              | Some tp => floordiv ws tp
              end) as [d | e];
      [ destruct (existsb _ _) | ];
      eexists; (repeat split; try eassumption); cbn [snd app]; reflexivity.
Qed.

(** X13.  A failure after the environment has been read leaves the process
    half initialised.  With [tensor_parallel_size] 0 the function raises
    [ZeroDivisionError] after [init_process_group] and [init_global]; with a
    mode outside [ALLOWED_MODES] it raises [AssertionError] after the
    data-parallel group and the seed have been set as well; in neither case
    is the device set. *)
Theorem initialize_fails_half_way :
  forall (env : environ) (args : Args) (log : list call)
         (rank local_rank world_size port : Z) (addr : String.string),
    int_of_env int env "RANK" = Startup.Returns rank ->
    int_of_env int env "LOCAL_RANK" = Startup.Returns local_rank ->
    int_of_env int env "WORLD_SIZE" = Startup.Returns world_size ->
    getitem env "MASTER_ADDR" = Startup.Returns addr ->
    int_of_env int env "MASTER_PORT" = Startup.Returns port ->
    let first :=
      [init_process_group rank world_size
         (match backend args with None => "nccl" | Some b => b end)
         (String.append "tcp://" (String.append addr (String.append ":" (str port))));
       init_global] in
    (tensor_parallel_size args = Some 0 ->
     init env args log
     = (Startup.Raises (Startup.Builtin ZeroDivisionError), (log ++ first)%list)) /\
    (tensor_parallel_size args <> Some 0 ->
     existsb (mode_eqb (tensor_parallel args)) ALLOWED_MODES = false ->
     init env args log
     = (Startup.Raises Startup.AssertionError,
        (log ++ first ++
         [init_data_parallel
            (match tensor_parallel_size args with
             | None => world_size
             | Some tp => world_size / tp
             end);
          set_seed (match seed args with Some s => s | None => _DEFAULT_SEED end);
          set_mode (tensor_parallel args)])%list)).
Proof.
  intros env args log rank lr ws port addr H1 H2 H3 H4 H5 first.
  rewrite (initialize_with_values env args rank lr ws port addr H1 H2 H3 H4 H5).
  rewrite body_runs. split.
  - intros Htp. rewrite Htp. reflexivity.
  - intros Htp Hmode. rewrite Hmode.
    destruct (tensor_parallel_size args) as [tp |]; [ | reflexivity ].
    unfold floordiv. destruct (Z.eqb_spec tp 0) as [-> | _];
      [ contradiction | reflexivity ].
Qed.

End InitializeFacts.

Section InitializeSuccess.

Import Initialize.
Local Open Scope string_scope.

Variable int : String.string -> Startup.result Z.
Variable ALLOWED_MODES : list (option String.string).

(** X14.  With the environment read, a tensor-parallel size other than 0
    and an allowed mode, the function returns after exactly these calls, in
    this order: process group, global group, data-parallel group, seed (1024
    unless given), mode, the tensor-parallel group only when a mode is
    given, and the device of the local rank last.  For a tensor-parallel
    size tp > 0 the data-parallel size d is the floor of world_size / tp:
    d * tp <= world_size < d * tp + tp, so when tp does not divide the world
    size the call still succeeds and world_size mod tp ranks are left
    over. *)
Theorem initialize_succeeds :
  forall (env : environ) (args : Args) (log : list call)
         (rank local_rank world_size port : Z) (addr : String.string),
    int_of_env int env "RANK" = Startup.Returns rank ->
    int_of_env int env "LOCAL_RANK" = Startup.Returns local_rank ->
    int_of_env int env "WORLD_SIZE" = Startup.Returns world_size ->
    getitem env "MASTER_ADDR" = Startup.Returns addr ->
    int_of_env int env "MASTER_PORT" = Startup.Returns port ->
    tensor_parallel_size args <> Some 0 ->
    existsb (mode_eqb (tensor_parallel args)) ALLOWED_MODES = true ->
    let d := match tensor_parallel_size args with
             | None => world_size
             | Some tp => world_size / tp
             end in
    let s := match seed args with Some s => s | None => _DEFAULT_SEED end in
    initialize_distributed int ALLOWED_MODES env args log
    = (Startup.Returns tt,
       (log ++
        [init_process_group rank world_size
           (match backend args with None => "nccl" | Some b => b end)
           (String.append "tcp://"
              (String.append addr (String.append ":" (str port))));
         init_global; init_data_parallel d; set_seed s;
         set_mode (tensor_parallel args)] ++
        match tensor_parallel args with
        | Some _ => [init_tensor_parallel (tensor_parallel_size args) s]
        | None => []
        end ++ [set_device local_rank])%list) /\
    (forall tp, tensor_parallel_size args = Some tp -> 0 < tp ->
                d * tp <= world_size < d * tp + tp /\
                world_size - d * tp = world_size mod tp).
Proof.
  intros env args log rank lr ws port addr H1 H2 H3 H4 H5 Htp Hmode d s.
  split.
  - rewrite (initialize_with_values int ALLOWED_MODES env args rank lr ws port addr
               H1 H2 H3 H4 H5).
    rewrite body_runs.
    assert (E : match tensor_parallel_size args with
                | None => Startup.Returns ws
                | Some tp => floordiv ws tp
                end = Startup.Returns d).
    { subst d. destruct (tensor_parallel_size args) as [tp |]; [ | reflexivity ].
      unfold floordiv. destruct (Z.eqb_spec tp 0) as [-> | _];
        [ contradiction | reflexivity ]. }
    rewrite E, Hmode. reflexivity.
  - intros tp E Hpos. subst d. rewrite E.
    pose proof (Z.div_mod ws tp ltac:(lia)) as Hdm.
    pose proof (Z.mod_pos_bound ws tp Hpos) as Hb. nia.
Qed.

End InitializeSuccess.

Section RunFacts.

Import Initialize.
Local Open Scope string_scope.

Variable int : String.string -> Startup.result Z.
Variable ALLOWED_MODES : list (option String.string).
Variable checks : Startup.M (list call) unit.

(** X15.  [run(rank, world_size, port)] overrides whatever the environment
    held: provided [int] reads back the three numbers that [str] wrote, and
    the command line gives a tensor-parallel size other than 0 and an
    allowed mode, the initialisation inside [run] cannot fail; it makes its
    calls with the rank and world size given to [run], the address
    tcp://localhost:port and the rank as local rank, and the checks start
    from there. *)
Theorem run_initializes_from_its_arguments :
  forall (rank world_size port : Z) (env : environ) (args : Args)
         (log : list call),
    int (str rank) = Startup.Returns rank ->
    int (str world_size) = Startup.Returns world_size ->
    int (str port) = Startup.Returns port ->
    tensor_parallel_size args <> Some 0 ->
    existsb (mode_eqb (tensor_parallel args)) ALLOWED_MODES = true ->
    let d := match tensor_parallel_size args with
             | None => world_size
             | Some tp => world_size / tp
             end in
    let s := match seed args with Some s => s | None => _DEFAULT_SEED end in
    Test1d.run int ALLOWED_MODES checks rank world_size port env args log
    = checks
        (log ++
         [init_process_group rank world_size
            (match backend args with None => "nccl" | Some b => b end)
            (String.append "tcp://localhost:" (str port));
          init_global; init_data_parallel d; set_seed s;
          set_mode (tensor_parallel args)] ++
         match tensor_parallel args with
         | Some _ => [init_tensor_parallel (tensor_parallel_size args) s]
         | None => []
         end ++ [set_device rank])%list.
Proof.
  intros rank ws port env args log Hr Hw Hp Htp Hmode d s.
  unfold Test1d.run, Startup.bind at 1.
  match goal with |- context [initialize_distributed int ALLOWED_MODES ?e args log] =>
    destruct (initialize_succeeds int ALLOWED_MODES e args log rank rank ws port
                "localhost") as [Hinit _];
      try assumption;
      try (unfold int_of_env; first [ exact Hr | exact Hw | exact Hp ]);
      try reflexivity end.
  rewrite Hinit. reflexivity.
Qed.

End RunFacts.

(** ** The start-up theorems at concrete inputs *)

Lemma initialize_reads_witness :
  Initialize.setitem (fun _ => None) "RANK"%string "0"%string "LOCAL_RANK"%string
  = None /\
  snd (Initialize.initialize_distributed Initialize.int_of_numeral [None]
         (Initialize.setitem (fun _ => None) "RANK"%string "0"%string)
         (Initialize.mkArgs None None None None) [])
  = [].
Proof.
  assert (H : Initialize.setitem (fun _ => None) "RANK"%string "0"%string
                "LOCAL_RANK"%string = None) by reflexivity.
  destruct (initialize_reads_before_calling Initialize.int_of_numeral [None]
              (Initialize.setitem (fun _ => None) "RANK"%string "0"%string)
              (Initialize.mkArgs None None None None) [])
    as [Hmiss _].
  split; [ exact H | exact (proj1 (Hmiss (or_intror (or_introl H)))) ].
Defined.

(** Rank 1 of 4 on this machine, port 23333. *)
Local Abbreviation cluster_env :=
  (Initialize.setitem
     (Initialize.setitem
        (Initialize.setitem
           (Initialize.setitem
              (Initialize.setitem (fun _ => None) "RANK"%string "1"%string)
              "LOCAL_RANK"%string "1"%string)
           "WORLD_SIZE"%string "4"%string)
        "MASTER_ADDR"%string "localhost"%string)
     "MASTER_PORT"%string "23333"%string).

Lemma initialize_fails_witness :
  Initialize.int_of_env Initialize.int_of_numeral cluster_env "RANK"%string
  = Startup.Returns 1 /\
  Initialize.tensor_parallel_size
    (Initialize.mkArgs None (Some 0) None (Some "1d"%string)) = Some 0 /\
  Initialize.initialize_distributed Initialize.int_of_numeral [None; Some "1d"%string]
    cluster_env (Initialize.mkArgs None (Some 0) None (Some "1d"%string)) []
  = (Startup.Raises (Startup.Builtin ZeroDivisionError),
     [Initialize.init_process_group 1 4 "nccl"%string "tcp://localhost:23333"%string;
      Initialize.init_global]).
Proof.
  destruct (initialize_fails_half_way Initialize.int_of_numeral
              [None; Some "1d"%string] cluster_env
              (Initialize.mkArgs None (Some 0) None (Some "1d"%string)) []
              1 1 4 23333 "localhost"%string
              eq_refl eq_refl eq_refl eq_refl eq_refl) as [Hzero _].
  split; [ reflexivity | split; [ reflexivity | exact (Hzero eq_refl) ] ].
Defined.

Lemma initialize_succeeds_witness :
  Initialize.int_of_env Initialize.int_of_numeral cluster_env "WORLD_SIZE"%string
  = Startup.Returns 4 /\
  Initialize.tensor_parallel_size
    (Initialize.mkArgs None (Some 3) None (Some "1d"%string)) <> Some 0 /\
  0 < 3 /\
  Initialize.initialize_distributed Initialize.int_of_numeral [None; Some "1d"%string]
    cluster_env (Initialize.mkArgs None (Some 3) None (Some "1d"%string)) []
  = (Startup.Returns tt,
     [Initialize.init_process_group 1 4 "nccl"%string "tcp://localhost:23333"%string;
      Initialize.init_global; Initialize.init_data_parallel 1;
      Initialize.set_seed 1024; Initialize.set_mode (Some "1d"%string);
      Initialize.init_tensor_parallel (Some 3) 1024; Initialize.set_device 1]) /\
  4 - (4 / 3) * 3 = 4 mod 3.
Proof.
  assert (Htp : Initialize.tensor_parallel_size
                  (Initialize.mkArgs None (Some 3) None (Some "1d"%string))
                <> Some 0) by discriminate.
  assert (Hpos : 0 < 3) by lia.
  destruct (initialize_succeeds Initialize.int_of_numeral
              [None; Some "1d"%string] cluster_env
              (Initialize.mkArgs None (Some 3) None (Some "1d"%string)) []
              1 1 4 23333 "localhost"%string
              eq_refl eq_refl eq_refl eq_refl eq_refl Htp eq_refl) as [Hrun Hdiv].
  split; [ reflexivity | split; [ exact Htp | split; [ exact Hpos | split ] ] ].
  - exact Hrun.
  - exact (proj2 (Hdiv 3 eq_refl Hpos)).
Defined.

Lemma run_initializes_witness :
  Initialize.int_of_numeral (Initialize.str 2) = Startup.Returns 2 /\
  Initialize.int_of_numeral (Initialize.str 4) = Startup.Returns 4 /\
  Initialize.int_of_numeral (Initialize.str 23333) = Startup.Returns 23333 /\
  Test1d.run Initialize.int_of_numeral [None; Some "1d"%string] (Startup.ret tt)
    2 4 23333 cluster_env
    (Initialize.mkArgs None (Some 4) None (Some "1d"%string)) []
  = (Startup.Returns tt,
     [Initialize.init_process_group 2 4 "nccl"%string "tcp://localhost:23333"%string;
      Initialize.init_global; Initialize.init_data_parallel 1;
      Initialize.set_seed 1024; Initialize.set_mode (Some "1d"%string);
      Initialize.init_tensor_parallel (Some 4) 1024; Initialize.set_device 2]).
Proof.
  assert (Htp : Initialize.tensor_parallel_size
                  (Initialize.mkArgs None (Some 4) None (Some "1d"%string))
                <> Some 0) by discriminate.
  split; [ reflexivity | split; [ reflexivity | split; [ reflexivity | ] ] ].
  exact (run_initializes_from_its_arguments Initialize.int_of_numeral
           [None; Some "1d"%string] (Startup.ret tt) 2 4 23333 cluster_env
           (Initialize.mkArgs None (Some 4) None (Some "1d"%string)) []
           eq_refl eq_refl eq_refl Htp eq_refl).
Defined.

(** * Properties of the driver *)

(** ** The optimizer schedule of an epoch *)

Lemma range_succ (m : nat) :
  Driver.range (Z.of_nat (S m)) = (Driver.range (Z.of_nat m) ++ [Z.of_nat m])%list.
Proof.
  unfold Driver.range. rewrite !Nat2Z.id, seq_S, map_app. reflexivity.
Qed.

(** How many of the numbers 1..m+1 are multiples of [ga]. *)
Lemma div_succ (ga m : Z) :
  0 < ga -> 0 <= m ->
  (m + 1) / ga = m / ga + (if (m + 1) mod ga =? 0 then 1 else 0).
Proof.
  intros Hga Hm.
  pose proof (Z.div_mod m ga ltac:(lia)) as E.
  pose proof (Z.mod_pos_bound m ga Hga) as B.
  pose proof (Z.div_mod (m + 1) ga ltac:(lia)) as E1.
  pose proof (Z.mod_pos_bound (m + 1) ga Hga) as B1.
  destruct (Z.eqb_spec ((m + 1) mod ga) 0) as [H0 | H0]; nia.
Qed.

(** Before the last iteration, the optimizer is stepped except at the
    multiples of [ga]. *)
Lemma steps_before_last (ga n : Z) (m : nat) :
  0 < ga -> Z.of_nat m < n ->
  Z.of_nat (length (filter Driver.stepped
                      (map (Driver.steps_optimizer ga n)
                           (Driver.range (Z.of_nat m)))))
  = Z.of_nat m - Z.of_nat m / ga.
Proof.
  intros Hga. induction m as [| m IH]; intros Hm.
  - reflexivity.
  - rewrite range_succ, map_app, filter_app, length_app, Nat2Z.inj_add.
    rewrite IH by lia.
    cbn [map filter]. unfold Driver.steps_optimizer at 1.
    destruct (Z.eqb_spec ga 0) as [E | _]; [ lia | ].
    destruct (Z.eqb_spec (Z.of_nat m + 1) n) as [E | _]; [ lia | ].
    rewrite orb_false_r. rewrite Nat2Z.inj_succ. unfold Z.succ.
    rewrite (div_succ ga (Z.of_nat m)) by lia.
    destruct (Z.eqb_spec ((Z.of_nat m + 1) mod ga) 0); cbn; lia.
Qed.

(** X17.  In [_train] the optimizer is stepped when the 1-based index of
    the iteration is not a multiple of [gradient_accumulation], and at the
    last iteration.  With [gradient_accumulation] >= 1 and an epoch of
    n >= 1 iterations no test raises and the optimizer is stepped
    n - (n - 1) / gradient_accumulation times (floor division): with the
    default value 1 that is once per epoch, at the last iteration.  The epoch
    never has more iterations than the data has batches. *)
Theorem optimizer_schedule :
  forall (ga len_train_data : Z) (steps_per_epoch : option Z),
    let n := Driver.num_steps len_train_data steps_per_epoch in
    let sched := Driver.schedule ga len_train_data steps_per_epoch in
    1 <= ga -> 1 <= n ->
    Z.of_nat (length sched) = n /\
    n <= len_train_data /\
    Forall (fun r => Startup.is_raise r = false) sched /\
    Z.of_nat (length (filter Driver.stepped sched)) = n - (n - 1) / ga /\
    (ga = 1 ->
     Z.of_nat (length (filter Driver.stepped sched)) = 1 /\
     forall i, 0 <= i < n ->
               Driver.steps_optimizer ga n i = Startup.Returns (i =? n - 1)).
Proof.
  intros ga len steps n sched Hga Hn.
  assert (Hlen : Z.of_nat (length sched) = n).
  { subst sched. unfold Driver.schedule. fold n.
    unfold Driver.range. rewrite !length_map, length_seq. lia. }
  assert (Hle : n <= len).
  { subst n. unfold Driver.num_steps. destruct steps as [k |]; [ | lia ].
    destruct (Z.ltb_spec k len); lia. }
  assert (Hok : Forall (fun r => Startup.is_raise r = false) sched).
  { subst sched. unfold Driver.schedule. apply Forall_map, Forall_forall.
    intros i _. unfold Driver.steps_optimizer.
    destruct (Z.eqb_spec ga 0); [ lia | reflexivity ]. }
  assert (Hcount : Z.of_nat (length (filter Driver.stepped sched))
                   = n - (n - 1) / ga).
  { subst sched. unfold Driver.schedule. fold n.
    destruct (Z.to_nat n) as [| m] eqn:Em; [ lia | ].
    assert (En : n = Z.of_nat (S m)) by lia.
    rewrite En at 2. rewrite range_succ, map_app, filter_app, length_app, Nat2Z.inj_add.
    rewrite steps_before_last by lia.
    cbn [map filter]. unfold Driver.steps_optimizer at 1.
    destruct (Z.eqb_spec ga 0) as [E | _]; [ lia | ].
    destruct (Z.eqb_spec (Z.of_nat m + 1) n) as [_ | E]; [ | lia ].
    rewrite orb_true_r. cbn [Driver.stepped length].
    replace (n - 1) with (Z.of_nat m) by lia. lia. }
  repeat apply conj; try assumption.
  intros ->. split.
  - rewrite Hcount, Z.div_1_r. lia.
  - intros i Hi. unfold Driver.steps_optimizer. cbn [Z.eqb].
    rewrite Z.mod_1_r. cbn [Z.eqb negb orb].
    f_equal. destruct (Z.eqb_spec (i + 1) n), (Z.eqb_spec i (n - 1)); try reflexivity; lia.
Qed.

Lemma optimizer_schedule_witness :
  1 <= 1 /\
  1 <= Driver.num_steps 100 (Some 10) /\
  Z.of_nat (length (filter Driver.stepped (Driver.schedule 1 100 (Some 10)))) = 1 /\
  Z.of_nat (length (filter Driver.stepped (Driver.schedule 4 100 (Some 10))))
  = 10 - (10 - 1) / 4.
Proof.
  assert (H1 : 1 <= 1) by lia.
  assert (H4 : 1 <= 4) by lia.
  assert (Hn : 1 <= Driver.num_steps 100 (Some 10)) by (vm_compute; discriminate).
  destruct (optimizer_schedule 1 100 (Some 10) H1 Hn) as (_ & _ & _ & _ & Hone).
  destruct (optimizer_schedule 4 100 (Some 10) H4 Hn) as (_ & _ & _ & Hfour & _).
  split; [ exact H1 | split; [ exact Hn | split ] ].
  - exact (proj1 (Hone eq_refl)).
  - exact Hfour.
Defined.
